(** * Retrieval fusion and multi-agent orchestration: a shallow embedding

    This development embeds the two Python pipelines of the repository,

    - [onboarding-agentic-rag/src/core/orchestrator.py] (class
      [AgentOrchestrator]), and
    - [aviation-graph-rag/src/core/graph_rag.py] (class [GraphRAGPipeline]),

    and states the properties of the specification against them.

    Modelling conventions.
    - Python [float] values are idealised as exact rationals ([Q]); rounding
      and the non-finite values [inf] and [nan] are outside the model.
      Equalities between floats are therefore stated with [==] ([Qeq]).
    - Python [int] values are unbounded and modelled by [Z].
    - [str] is modelled by [string], one character per code point.
    - [dict] is modelled by [gmap string _], [set] by [gset].
    - A coroutine is a computation in the monad [Py]: it threads the state of
      the process ([World]) and either returns a value or raises an
      exception.  Exceptions are instances of Python's [Exception] class, the
      ones an [except Exception] clause handles.
    - The external collaborators (generation model, agent registry, graph and
      vector stores, clock, built-in formatting) are the fields of [Env];
      every theorem quantifies over them. *)

From Stdlib Require Import Ascii String QArith Qminmax Qfield Lqa.
From stdpp Require Import base option list sorting strings pretty gmap sets.

Local Open Scope string_scope.
Local Open Scope list_scope.

(** ** Python values and exceptions *)

(** A dynamically typed Python value, as stored in a metadata dictionary or
    bound to a prompt variable. *)
#[local] Set Warnings "-register-all".
Inductive PyVal : Type :=
| VNone
| VStr (s : string)
| VInt (n : Z)
| VFloat (q : Q)
| VList (l : list PyVal)
| VDict (d : gmap string PyVal).
#[local] Set Warnings "register-all".

(** An instance of [Exception]: its class name and its [str()]. *)
Record PyExn : Type := mkExn {
  exn_class : string;
  exn_str : string
}.

(** What a call produces: a value, or a raised exception. *)
Inductive Outcome (A : Type) : Type :=
| Returned (a : A)
| Raised (e : PyExn).
Arguments Returned {A} a.
Arguments Raised {A} e.

Definition is_raised {A} (o : Outcome A) : bool :=
  match o with Raised _ => true | Returned _ => false end.

(** ** Strings: the built-in methods the code uses *)

(** [s[:n]] *)
Definition py_prefix (n : nat) (s : string) : string := String.substring 0 n s.

(** The ASCII characters [str.strip()] removes. *)
Definition is_whitespace (c : ascii) : bool :=
  let n := nat_of_ascii c in
  (n =? 32)%nat || ((9 <=? n)%nat && (n <=? 13)%nat) || ((28 <=? n)%nat && (n <=? 31)%nat).

Fixpoint lstrip (s : string) : string :=
  match s with
  | String c s' => if is_whitespace c then lstrip s' else s
  | EmptyString => EmptyString
  end.

(** [s.strip()] *)
Definition py_strip (s : string) : string :=
  String.rev (lstrip (String.rev (lstrip s))).

Definition lower_ascii (c : ascii) : ascii :=
  let n := nat_of_ascii c in
  if (65 <=? n)%nat && (n <=? 90)%nat then ascii_of_nat (n + 32) else c.

(** [s.lower()], on ASCII letters *)
Fixpoint py_lower (s : string) : string :=
  match s with
  | String c s' => String (lower_ascii c) (py_lower s')
  | EmptyString => EmptyString
  end.

(** [sep.join(parts)] *)
Definition py_join (sep : string) (parts : list string) : string :=
  String.concat sep parts.

(** ** Floats: [min], [max] and comparison *)

(** [a < b] *)
Definition Qltb (a b : Q) : bool := negb (Qle_bool b a).

(** [min(a, b)]: the first argument unless the second is strictly smaller. *)
Definition py_min (a b : Q) : Q := if Qltb b a then b else a.

(** [max(a, b)]: the first argument unless the second is strictly larger. *)
Definition py_max (a b : Q) : Q := if Qltb a b then b else a.

(** [sum(xs)] over floats. *)
Definition py_sum (xs : list Q) : Q := foldr Qplus 0%Q xs.

(** The newline character of the format strings. *)
Definition nl : string := String (ascii_of_nat 10) EmptyString.

(** ** Data model *)

(** [langchain.schema.Document] *)
Record Document : Type := mkDocument {
  page_content : string;
  doc_metadata : gmap string PyVal
}.

(** Modelled from the spec: [AgentContext] is declared in the module
    [agents/base_agent.py], which is not part of the sources.  The spec's
    Query: raw text, optional user and session identifiers, optional
    conversation history, optional user profile. *)
Record AgentContext : Type := mkContext {
  query : string;
  user_id : option string;
  session_id : option string;
  conversation_history : option (list PyVal);
  user_profile : option (gmap string PyVal)
}.

(** Modelled from the spec: [AgentResponse] is declared in the module
    [agents/base_agent.py], which is not part of the sources.  The fields are
    the ones the orchestrator reads and the spec lists. *)
Record AgentResponse : Type := mkResponse {
  content : string;
  confidence : Q;
  sources : list Document;
  processing_time : Q;
  metadata : gmap string PyVal
}.

(** Modelled from the spec: the agent classes live in the package
    [agents/], which is not part of the sources.  An agent is a black box
    with an [execute] coroutine; [agent_role] is the identifier under which
    the registry knows it, which the orchestrator never reads. *)
Record Agent : Type := mkAgent {
  agent_role : string;
  execute : AgentContext -> Outcome AgentResponse
}.

Record OrchestrationResult : Type := mkResult {
  final_response : string;
  agent_responses : list AgentResponse;
  result_confidence : Q;
  result_sources : list Document;
  result_metadata : gmap string PyVal;
  result_processing_time : Q;
  agent_sequence : list PyVal
}.

(** A value bound in a row returned by the graph store: the code tells
    nodes (objects with [labels]) from relationships (objects with [type])
    and ignores anything else. *)
Inductive GraphValue : Type :=
| GNode (identity : Z) (labels : list string) (properties : gmap string PyVal)
| GRelationship (identity : Z) (type : string) (properties : gmap string PyVal)
| GOther (v : PyVal).

(** ** The process state and the external collaborators *)

Inductive Chain : Type :=
| synthesis_prompt | quality_prompt | intent_prompt | entity_prompt | response_prompt.

(** A call that leaves the process. *)
Inductive ExternalCall : Type :=
| GenerationCall (chain : Chain) (variables : list (string * PyVal))
| GraphQueryCall (cypher : string)
| EmbeddingCall (text : string)
| VectorSearchCall (embedding : list Q) (k : Z) (intent_filter : string).

(** The mutable attributes of [AgentOrchestrator]. *)
Record Metrics : Type := mkMetrics {
  total_orchestrations : Z;
  successful_orchestrations : Z;
  average_processing_time : Q
}.

(** [AgentOrchestrator.__init__], the metrics part. *)
Definition initial_metrics : Metrics :=
  {| total_orchestrations := 0; successful_orchestrations := 0;
     average_processing_time := 0 |}.

Record World : Type := mkWorld {
  self_metrics : Metrics;
  (** the external calls issued so far, oldest first *)
  calls : list ExternalCall;
  (** how many times the clock was read *)
  clock_reads : nat;
  (** how many asyncio tasks the process has created *)
  tasks_created : nat
}.

(** The collaborators the pipelines are run against.  The generation model
    and the stores see the history of external calls, so that they may answer
    the same request differently at different times. *)
Record Env : Type := mkEnv {
  (** [chain.ainvoke(variables)] *)
  generation_model : list ExternalCall -> Chain -> list (string * PyVal) -> Outcome string;
  (** [agent_registry.route_query(query, context)] *)
  registry_route_query : string -> AgentContext -> Outcome (list (Agent * Q));
  (** the value of the n-th reading of [time.time()] *)
  clock : nat -> Q;
  (** [float(text)] for finite values; [None] stands for [ValueError] *)
  float_of_text : string -> option Q;
  (** [str(value)] *)
  str_of : PyVal -> string;
  (** [format(x, ".2f")] *)
  format_2f : Q -> string;
  (** whether [asyncio.Task] has [get_name] (Python 3.8 and later) *)
  task_has_get_name : bool;
  (** for each row of [graph_service.execute_query(cypher)], its items *)
  graph_execute_query : list ExternalCall -> string -> Outcome (list (list (string * GraphValue)));
  (** [embeddings.aembed_query(query)] *)
  embed_query : list ExternalCall -> string -> Outcome (list Q);
  (** [vector_service.search(embedding, k, filter)] *)
  vector_search : list ExternalCall -> list Q -> Z -> string -> Outcome (list Document)
}.

(** ** The coroutine monad *)

Definition Py (A : Type) : Type := World -> Outcome A * World.

#[global] Instance Py_ret : MRet Py := fun A a w => (Returned a, w).

#[global] Instance Py_bind : MBind Py := fun A B k m w =>
  match m w with
  | (Returned a, w') => k a w'
  | (Raised e, w') => (Raised e, w')
  end.

(** A call that does not touch the process state. *)
Definition lift {A} (o : Outcome A) : Py A := fun w => (o, w).

Definition raise {A} (e : PyExn) : Py A := lift (Raised e).

(** [try: body except <classes>: handler]. *)
Definition try_except {A} (body : Py A) (handles : PyExn -> bool)
    (handler : PyExn -> Py A) : Py A := fun w =>
  match body w with
  | (Raised e, w') => if handles e then handler e w' else (Raised e, w')
  | (Returned a, w') => (Returned a, w')
  end.

(** [except Exception] *)
Definition any_exception (e : PyExn) : bool := true.

(** [except ValueError] *)
Definition value_error (e : PyExn) : bool := String.eqb (exn_class e) "ValueError".

(** ** orchestrator.py: [AgentOrchestrator] *)

Module AgentOrchestrator.

(** An [asyncio.Task]: its name and what awaiting it produces. *)
Record Task : Type := mkTask {
  task_name : string;
  task_outcome : Outcome AgentResponse
}.

(** [list.sort(key=key, reverse=True)]: descending by key, elements with
    equal keys keep their relative order. *)
Fixpoint insert_reverse {A} (key : A -> Q) (x : A) (l : list A) : list A :=
  match l with
  | [] => [x]
  | y :: l' => if Qle_bool (key y) (key x) then x :: y :: l'
               else y :: insert_reverse key x l'
  end.

Definition sort_reverse {A} (key : A -> Q) (l : list A) : list A :=
  foldr (insert_reverse key) [] l.

Section Methods.
Variable E : Env.

(** [time.time()] *)
Definition time_time : Py Q := fun w =>
  (Returned (clock E (clock_reads w)),
   mkWorld (self_metrics w) (calls w) (S (clock_reads w)) (tasks_created w)).

(** [await chain.ainvoke(variables)] *)
Definition ainvoke (chain : Chain) (variables : list (string * PyVal)) : Py string := fun w =>
  (generation_model E (calls w) chain variables,
   mkWorld (self_metrics w) (calls w ++ [GenerationCall chain variables])
           (clock_reads w) (tasks_created w)).

(** [asyncio.create_task(coro)]: the task gets the default name
    ["Task-<n>"], numbered by the process-wide counter. *)
Definition create_task (coro : Outcome AgentResponse) : Py Task := fun w =>
  (Returned (mkTask ("Task-" +:+ pretty (S (tasks_created w))) coro),
   mkWorld (self_metrics w) (calls w) (clock_reads w) (S (tasks_created w))).

(** [await asyncio.gather] on the tasks, without [return_exceptions]: the results
    in the order of the tasks, or the exception of a task that raised.  When
    several tasks raise, asyncio propagates the one raised first; the model
    takes the first in the order of the tasks. *)
Fixpoint gather (tasks : list Task) : Outcome (list AgentResponse) :=
  match tasks with
  | [] => Returned []
  | task :: rest =>
      match task_outcome task with
      | Raised e => Raised e
      | Returned response =>
          match gather rest with
          | Raised e => Raised e
          | Returned responses => Returned (response :: responses)
          end
      end
  end.

(** [task.get_name() if hasattr(task, 'get_name') else "unknown"] *)
Definition get_name_or_unknown (task : Task) : PyVal :=
  if task_has_get_name E then VStr (task_name task) else VStr "unknown".

(** The two assignments to [response.metadata]. *)
Definition tag_response (task : Task) (priority : Q) (response : AgentResponse) : AgentResponse :=
  mkResponse (content response) (confidence response) (sources response)
    (processing_time response)
    (<["agent_role" := get_name_or_unknown task]>
       (<["priority" := VFloat priority]> (metadata response))).

(** The loop over [zip(tasks, results)]. *)
Fixpoint successful_responses (pairs : list ((Task * Q) * AgentResponse)) : list AgentResponse :=
  match pairs with
  | [] => []
  | ((task, priority), response) :: rest =>
      if Qltb 0 (confidence response)
      then tag_response task priority response :: successful_responses rest
      else successful_responses rest
  end.

(** [x.metadata.get("priority", 0)].  The loop above always stores a float
    under this key. *)
Definition priority_key (x : AgentResponse) : Q :=
  match metadata x !! "priority" with
  | Some (VFloat q) => q
  | Some (VInt n) => inject_Z n
  | _ => 0
  end.

(** The loop creating one task per assignment. *)
Fixpoint create_tasks (agent_assignments : list (Agent * Q)) (context : AgentContext)
    : Py (list (Task * Q)) :=
  match agent_assignments with
  | [] => mret []
  | (agent, priority) :: rest =>
      task ← create_task (execute agent context);
      tasks ← create_tasks rest context;
      mret ((task, priority) :: tasks)
  end.

Definition _route_to_agents (context : AgentContext) : Py (list (Agent * Q)) :=
  lift (registry_route_query E (query context) context).

Definition _execute_agents (agent_assignments : list (Agent * Q)) (context : AgentContext)
    : Py (list AgentResponse) :=
  tasks ← create_tasks agent_assignments context;
  results ← lift (gather (fst <$> tasks));
  mret (sort_reverse priority_key (successful_responses (zip tasks results))).

(** [resp.metadata.get("agent_role", "unknown")] *)
Definition role_of (resp : AgentResponse) : PyVal :=
  default (VStr "unknown") (metadata resp !! "agent_role").

Definition profile_value (context : AgentContext) : PyVal :=
  match user_profile context with Some d => VDict d | None => VNone end.

(** One entry of [agent_responses_text]; [i] counts from 0. *)
Definition synthesis_entry (i : nat) (response : AgentResponse) : string :=
  "Agent " +:+ pretty (i + 1)%nat +:+ " (" +:+ str_of E (role_of response) +:+ "):" +:+ nl +:+
  "Confidence: " +:+ format_2f E (confidence response) +:+ nl +:+
  "Response: " +:+ content response +:+ nl.

Definition unable_message : string :=
  "I'm unable to provide a comprehensive answer at this time.".

Definition _synthesize_responses (query : string) (agent_responses : list AgentResponse)
    (context : AgentContext) : Py string :=
  match agent_responses with
  | [] => mret unable_message
  | [response] => mret (content response)
  | _ =>
      let agent_responses_text := imap synthesis_entry agent_responses in
      ainvoke synthesis_prompt
        [("query", VStr query);
         ("agent_responses", VStr (py_join (nl +:+ nl) agent_responses_text));
         ("user_context", VStr (str_of E (profile_value context)))]
  end.

(** [float(text)] *)
Definition py_float (text : string) : Py Q :=
  match float_of_text E text with
  | Some q => mret q
  | None => raise (mkExn "ValueError" "could not convert string to float")
  end.

Definition contribution_entry (response : AgentResponse) : string :=
  "Agent: " +:+ str_of E (role_of response) +:+ ", " +:+
  "Confidence: " +:+ format_2f E (confidence response).

(** A document and a response as values, field by field. *)
Definition document_value (d : Document) : PyVal :=
  VDict (list_to_map
    [("page_content", VStr (page_content d)); ("metadata", VDict (doc_metadata d))]).

Definition response_value (r : AgentResponse) : PyVal :=
  VDict (list_to_map
    [("content", VStr (content r));
     ("confidence", VFloat (confidence r));
     ("sources", VList (document_value <$> sources r));
     ("processing_time", VFloat (processing_time r));
     ("metadata", VDict (metadata r))]).

(** The variables bound in the quality prompt.  The loop that builds
    [agent_contributions] names its variable [response] too: once it has
    run, [response] is the last agent response, no longer the text passed
    in, and that is what the prompt receives. *)
Definition quality_variables (query : string) (response : string)
    (agent_responses : list AgentResponse) : list (string * PyVal) :=
  let agent_contributions := contribution_entry <$> agent_responses in
  let response :=
    match last agent_responses with
    | Some r => response_value r
    | None => VStr response
    end in
  [("query", VStr query);
   ("response", response);
   ("agent_contributions", VStr (py_join nl agent_contributions))].

Definition _assess_quality (query : string) (response : string)
    (agent_responses : list AgentResponse) : Py Q :=
  match agent_responses with
  | [] => mret 0%Q
  | _ =>
      try_except
        (quality_score ← ainvoke quality_prompt
           (quality_variables query response agent_responses);
         try_except (py_float (py_strip quality_score))
           value_error (fun _ => mret (1 # 2)%Q))
        any_exception (fun _ => mret (1 # 2)%Q)
  end.

(** The f-string building [source_id]. *)
Definition source_id (source : Document) : string :=
  py_prefix 100 (page_content source) +:+ "_" +:+
  str_of E (default (VStr "unknown") (doc_metadata source !! "source")).

(** The body of the inner loop, on the pair [(all_sources, seen_sources)]. *)
Definition add_source (acc : list Document * gset string) (source : Document)
    : list Document * gset string :=
  if decide (source_id source ∈ acc.2) then acc
  else (acc.1 ++ [source], {[source_id source]} ∪ acc.2).

Definition _extract_sources (agent_responses : list AgentResponse) : list Document :=
  (foldl (fun acc response => foldl add_source acc (sources response))
         ([], ∅) agent_responses).1.

Definition option_value (o : option string) : PyVal :=
  match o with Some s => VStr s | None => VNone end.

(** [sum(...)] of floats: the integer 0 for an empty sequence. *)
Definition py_sum_value (xs : list Q) : PyVal :=
  match xs with [] => VInt 0 | _ => VFloat (foldl Qplus 0%Q xs) end.

Definition _generate_metadata (agent_responses : list AgentResponse)
    (context : AgentContext) : Outcome (gmap string PyVal) :=
  let n := Z.of_nat (length agent_responses) in
  let confidences := confidence <$> agent_responses in
  match user_profile context with
  | None => Raised (mkExn "AttributeError" "'NoneType' object has no attribute 'keys'")
  | Some profile =>
  match conversation_history context with
  | None => Raised (mkExn "TypeError" "object of type 'NoneType' has no len()")
  | Some history =>
      Returned (list_to_map
        [("user_id", option_value (user_id context));
         ("session_id", option_value (session_id context));
         ("agent_count", VInt n);
         ("agent_roles", VList (role_of <$> agent_responses));
         ("total_confidence", py_sum_value confidences);
         ("average_confidence",
            VFloat (match agent_responses with
                    | [] => 0
                    | _ => foldl Qplus 0 confidences / inject_Z n
                    end)%Q);
         ("total_processing_time", py_sum_value (processing_time <$> agent_responses));
         ("user_profile_keys", VList (VStr <$> (map_to_list profile).*1));
         ("conversation_history_length", VInt (Z.of_nat (length history)))])
  end end.

Definition set_metrics (m : Metrics) : Py unit := fun w =>
  (Returned tt, mkWorld m (calls w) (clock_reads w) (tasks_created w)).

Definition get_metrics : Py Metrics := fun w => (Returned (self_metrics w), w).

Definition _update_metrics (processing_time : Q) (success : bool) : Py unit :=
  self ← get_metrics;
  let successful :=
    if success then (successful_orchestrations self + 1)%Z
    else successful_orchestrations self in
  let average :=
    if (0 <? total_orchestrations self)%Z
    then ((average_processing_time self * inject_Z (total_orchestrations self - 1)
           + processing_time) / inject_Z (total_orchestrations self))%Q
    else average_processing_time self in
  set_metrics (mkMetrics (total_orchestrations self) successful average).

Definition get_orchestrator_metrics : Py (gmap string PyVal) :=
  self ← get_metrics;
  let success_rate :=
    if (0 <? total_orchestrations self)%Z
    then (inject_Z (successful_orchestrations self) / inject_Z (total_orchestrations self))%Q
    else 0%Q in
  mret (list_to_map
    [("total_orchestrations", VInt (total_orchestrations self));
     ("successful_orchestrations", VInt (successful_orchestrations self));
     ("success_rate", VFloat success_rate);
     ("average_processing_time", VFloat (average_processing_time self))]).

(** [self.total_orchestrations += 1] *)
Definition count_orchestration : Py unit :=
  self ← get_metrics;
  set_metrics (mkMetrics (total_orchestrations self + 1)
                 (successful_orchestrations self) (average_processing_time self)).

(** The body of the [try] block of [orchestrate_query]. *)
Definition orchestrate_steps (context : AgentContext) (start_time : Q)
    : Py OrchestrationResult :=
  agent_assignments ← _route_to_agents context;
  agent_responses ← _execute_agents agent_assignments context;
  final_response ← _synthesize_responses (query context) agent_responses context;
  confidence ← _assess_quality (query context) final_response agent_responses;
  let sources := _extract_sources agent_responses in
  metadata ← lift (_generate_metadata agent_responses context);
  now ← time_time;
  let processing_time := (now - start_time)%Q in
  _ ← _update_metrics processing_time true;
  mret (mkResult final_response agent_responses confidence sources metadata
          processing_time (role_of <$> agent_responses)).

(** The [except Exception as e] block of [orchestrate_query]. *)
Definition orchestrate_failed (start_time : Q) (e : PyExn) : Py OrchestrationResult :=
  now ← time_time;
  let processing_time := (now - start_time)%Q in
  _ ← _update_metrics processing_time false;
  mret (mkResult
          ("I encountered an error while processing your request: " +:+ exn_str e)
          [] 0%Q [] {["error" := VStr (exn_str e)]} processing_time []).

Definition orchestrate_query (context : AgentContext) : Py OrchestrationResult :=
  start_time ← time_time;
  _ ← count_orchestration;
  try_except (orchestrate_steps context start_time) any_exception
             (orchestrate_failed start_time).

End Methods.
End AgentOrchestrator.

(** ** graph_rag.py: [GraphRAGPipeline] *)

Module GraphRAGPipeline.

(** The dictionary built for a node by [_process_graph_results]. *)
Record NodeDict : Type := mkNode {
  node_id : Z;
  node_labels : list string;
  node_properties : gmap string PyVal
}.

(** The dictionary built for a relationship by [_process_graph_results]. *)
Record RelationshipDict : Type := mkRelationship {
  rel_id : Z;
  rel_type : string;
  rel_properties : gmap string PyVal
}.

(** The graph context dictionary: keys [nodes], [relationships], [paths]
    and, when the traversal succeeded, [intent]. *)
Record GraphContext : Type := mkGraphContext {
  nodes : list NodeDict;
  relationships : list RelationshipDict;
  paths : list PyVal;
  context_intent : option string
}.

(** The dictionary returned by [_fuse_context]. *)
Record FusedContext : Type := mkFused {
  graph_nodes : list NodeDict;
  graph_relationships : list RelationshipDict;
  vector_documents : list string;
  combined_context : string
}.

Record GraphRAGResponse : Type := mkGraphRAGResponse {
  answer : string;
  sources : list (gmap string PyVal);
  confidence : Q;
  graph_paths : list PyVal;
  vector_sources : list Document;
  metadata : gmap string PyVal
}.

(** The four query texts of [_build_cypher_query], with their line breaks
    and indentation. *)
Definition FLIGHT_INFO_QUERY : string :=
  "
            MATCH (f:Flight)-[:DEPARTS_FROM]->(dep:Airport)
            MATCH (f)-[:ARRIVES_AT]->(arr:Airport)
            MATCH (f)-[:OPERATED_BY]->(a:Aircraft)
            WHERE f.flight_number CONTAINS $flight_number
            RETURN f, dep, arr, a
            LIMIT 10
            ".

Definition SAFETY_QUERY : string :=
  "
            MATCH (sp:SafetyProtocol)-[:ENFORCED_BY]->(r:Regulation)
            MATCH (sp)-[:APPLIES_TO]->(e:Equipment)
            WHERE sp.name CONTAINS $protocol_name
            RETURN sp, r, e
            LIMIT 10
            ".

Definition MAINTENANCE_QUERY : string :=
  "
            MATCH (m:Maintenance)-[:PERFORMED_ON]->(e:Equipment)
            MATCH (m)-[:FOLLOWS]->(p:Procedure)
            WHERE e.equipment_id = $equipment_id
            RETURN m, e, p
            LIMIT 10
            ".

Definition FALLBACK_QUERY : string :=
  "
            MATCH (n)
            WHERE n.name CONTAINS $search_term
            RETURN n
            LIMIT 5
            ".

Definition apology_message : string :=
  "I apologize, but I'm unable to process your request at the moment. Please try again later.".

Section Methods.
Variable E : Env.

(** [await chain.ainvoke(variables)] *)
Definition ainvoke (chain : Chain) (variables : list (string * PyVal)) : Py string := fun w =>
  (generation_model E (calls w) chain variables,
   mkWorld (self_metrics w) (calls w ++ [GenerationCall chain variables])
           (clock_reads w) (tasks_created w)).

(** [await self.graph_service.execute_query(cypher_query)] *)
Definition execute_query (cypher_query : string) : Py (list (list (string * GraphValue))) := fun w =>
  (graph_execute_query E (calls w) cypher_query,
   mkWorld (self_metrics w) (calls w ++ [GraphQueryCall cypher_query])
           (clock_reads w) (tasks_created w)).

(** [await self.embeddings.aembed_query(query)] *)
Definition aembed_query (query : string) : Py (list Q) := fun w =>
  (embed_query E (calls w) query,
   mkWorld (self_metrics w) (calls w ++ [EmbeddingCall query])
           (clock_reads w) (tasks_created w)).

(** [await self.vector_service.search(query_embedding, k=k, filter={"intent": intent})] *)
Definition search (query_embedding : list Q) (k : Z) (intent : string) : Py (list Document) := fun w =>
  (vector_search E (calls w) query_embedding k intent,
   mkWorld (self_metrics w) (calls w ++ [VectorSearchCall query_embedding k intent])
           (clock_reads w) (tasks_created w)).

Definition _classify_intent (query : string) : Py string :=
  try_except
    (intent ← ainvoke intent_prompt [("query", VStr query)];
     mret (py_lower (py_strip intent)))
    any_exception (fun _ => mret "general").

Definition _extract_entities (query : string) : Py (list (gmap string PyVal)) :=
  try_except
    (entities_json ← ainvoke entity_prompt [("query", VStr query)];
     let entities := [] in
     mret entities)
    any_exception (fun _ => mret []).

Definition _build_cypher_query (intent : string) (entities : list (gmap string PyVal)) : string :=
  if String.eqb intent "flight_info" then FLIGHT_INFO_QUERY
  else if String.eqb intent "safety" then SAFETY_QUERY
  else if String.eqb intent "maintenance" then MAINTENANCE_QUERY
  else FALLBACK_QUERY.

(** The body of the inner loop of [_process_graph_results], on the pair
    [(nodes, relationships)]. *)
Definition add_value (acc : list NodeDict * list RelationshipDict) (item : string * GraphValue)
    : list NodeDict * list RelationshipDict :=
  match item.2 with
  | GNode identity labels properties =>
      (acc.1 ++ [mkNode identity labels properties], acc.2)
  | GRelationship identity type properties =>
      (acc.1, acc.2 ++ [mkRelationship identity type properties])
  | GOther _ => acc
  end.

Definition _process_graph_results (results : list (list (string * GraphValue)))
    (intent : string) : GraphContext :=
  let acc := foldl (fun acc result => foldl add_value acc result) ([], []) results in
  mkGraphContext acc.1 acc.2 [] (Some intent).

Definition _traverse_graph (query : string) (intent : string)
    (entities : list (gmap string PyVal)) : Py GraphContext :=
  try_except
    (let cypher_query := _build_cypher_query intent entities in
     result ← execute_query cypher_query;
     let graph_context := _process_graph_results result intent in
     mret graph_context)
    any_exception (fun _ => mret (mkGraphContext [] [] [] None)).

Definition _search_vector (query : string) (intent : string) : Py (list Document) :=
  try_except
    (query_embedding ← aembed_query query;
     results ← search query_embedding 5 intent;
     mret results)
    any_exception (fun _ => mret []).

Definition _combine_contexts (graph_context : GraphContext) (vector_context : list Document)
    : Outcome string :=
  let node_line (node : NodeDict) : Outcome string :=
    match node_labels node with
    | [] => Raised (mkExn "IndexError" "list index out of range")
    | label :: _ =>
        Returned ("- " +:+ label +:+ ": " +:+
                  str_of E (default (VStr "N/A") (node_properties node !! "name")))
    end in
  let fix node_lines (l : list NodeDict) : Outcome (list string) :=
    match l with
    | [] => Returned []
    | node :: rest =>
        match node_line node with
        | Raised e => Raised e
        | Returned line =>
            match node_lines rest with
            | Raised e => Raised e
            | Returned lines => Returned (line :: lines)
            end
        end
    end in
  let graph_part : Outcome (list string) :=
    match nodes graph_context with
    | [] => Returned []
    | _ => match node_lines (nodes graph_context) with
           | Raised e => Raised e
           | Returned lines => Returned ("Graph Information:" :: lines)
           end
    end in
  let vector_part : list string :=
    match vector_context with
    | [] => []
    | _ => (nl +:+ "Related Documents:") ::
           ((fun doc => "- " +:+ py_prefix 200 (page_content doc) +:+ "...") <$> vector_context)
    end in
  match graph_part with
  | Raised e => Raised e
  | Returned context_parts => Returned (py_join nl (context_parts ++ vector_part))
  end.

Definition _fuse_context (graph_context : GraphContext) (vector_context : list Document)
    : Py FusedContext :=
  combined ← lift (_combine_contexts graph_context vector_context);
  mret (mkFused (nodes graph_context) (relationships graph_context)
          (page_content <$> vector_context) combined).

(** [user_context or {}] *)
Definition or_empty (user_context : option (gmap string PyVal)) : PyVal :=
  match user_context with Some d => VDict d | None => VDict ∅ end.

(** The variables bound in the response prompt. *)
Definition response_variables (query : string) (fused_context : FusedContext)
    (user_context : option (gmap string PyVal)) : list (string * PyVal) :=
  [("query", VStr query);
   ("graph_context", VStr (combined_context fused_context));
   ("vector_context", VList (VStr <$> vector_documents fused_context));
   ("user_context", or_empty user_context)].

Definition _generate_response (query : string) (fused_context : FusedContext)
    (user_context : option (gmap string PyVal)) : Py string :=
  try_except
    (response ← ainvoke response_prompt
       (response_variables query fused_context user_context);
     mret response)
    any_exception (fun _ => mret apology_message).

Definition _assess_confidence (response : string) (query : string) (context : FusedContext)
    : Py Q :=
  let graph_nodes := length (graph_nodes context) in
  let vector_docs := length (vector_documents context) in
  let confidence := py_min (9 # 10) (inject_Z (Z.of_nat (graph_nodes + vector_docs)) / 10) in
  mret (py_max (1 # 10) confidence).

Definition _extract_sources (graph_context : GraphContext) (vector_context : list Document)
    : list (gmap string PyVal) :=
  ((fun node => list_to_map
      [("type", VStr "graph");
       ("id", VInt (node_id node));
       ("labels", VList (VStr <$> node_labels node));
       ("properties", VDict (node_properties node))]) <$> nodes graph_context)
  ++ imap (fun i doc => list_to_map
      [("type", VStr "vector");
       ("id", VStr ("vector_" +:+ pretty i));
       ("content", VStr (py_prefix 200 (page_content doc)));
       ("metadata", VDict (doc_metadata doc))]) vector_context.

Definition process_query (query : string) (user_context : option (gmap string PyVal))
    : Py GraphRAGResponse :=
  intent ← _classify_intent query;
  entities ← _extract_entities query;
  graph_context ← _traverse_graph query intent entities;
  vector_context ← _search_vector query intent;
  fused_context ← _fuse_context graph_context vector_context;
  response ← _generate_response query fused_context user_context;
  confidence ← _assess_confidence response query fused_context;
  mret (mkGraphRAGResponse response
          (_extract_sources graph_context vector_context)
          confidence
          (paths graph_context)
          vector_context
          (list_to_map
             [("intent", VStr intent);
              ("entities", VList (VDict <$> entities));
              ("processing_time", VNone)])).

End Methods.
End GraphRAGPipeline.

Import AgentOrchestrator.

(** ** A concrete environment, used to run the pipelines on examples *)

Definition digit_value (c : ascii) : option Z :=
  let n := nat_of_ascii c in
  if (48 <=? n)%nat && (n <=? 57)%nat then Some (Z.of_nat (n - 48)) else None.

(** Reads a run of decimal digits: the value read on top of [acc], the number
    of digits read, and the rest of the text. *)
Fixpoint read_digits (s : string) (acc : Z) (count : nat) : Z * nat * string :=
  match s with
  | String c s' =>
      match digit_value c with
      | Some d => read_digits s' (10 * acc + d)%Z (S count)
      | None => (acc, count, s)
      end
  | EmptyString => (acc, count, s)
  end.

(** [float(text)] on plain decimal literals: an optional sign, digits, an
    optional point and more digits, at least one digit in all.  Exponents,
    underscores and the non-finite literals are not covered. *)
Definition decimal_float (text : string) : option Q :=
  let '(negative, body) :=
    match text with
    | String "-" s => (true, s)
    | String "+" s => (false, s)
    | _ => (false, text)
    end in
  let '(int_part, int_digits, rest) := read_digits body 0 0 in
  let '(mantissa, frac_digits, rest') :=
    match rest with
    | String "." s => read_digits s int_part 0
    | _ => (int_part, 0%nat, rest)
    end in
  match rest', (int_digits + frac_digits)%nat with
  | EmptyString, S _ =>
      let q := Qred (mantissa # Z.to_pos (10 ^ Z.of_nat frac_digits)) in
      Some (if negative then Qopp q else q)
  | _, _ => None
  end.

(** An environment whose generation model and registry answer as given, and
    whose stores are empty.  [str()] is exact on strings. *)
Definition example_env (model : Chain -> Outcome string)
    (assignments : Outcome (list (Agent * Q))) : Env :=
  {| generation_model := fun _ chain _ => model chain;
     registry_route_query := fun _ _ => assignments;
     clock := fun n => inject_Z (Z.of_nat n);
     float_of_text := decimal_float;
     str_of := fun v => match v with VStr s => s | _ => "<object>" end;
     format_2f := fun q => pretty (Qnum q) +:+ "/" +:+ pretty (Zpos (Qden q));
     task_has_get_name := true;
     graph_execute_query := fun _ _ => Returned [];
     embed_query := fun _ _ => Returned [];
     vector_search := fun _ _ _ _ => Returned [] |}.

(** A process that has just started: fresh metrics, no call issued, one task
    (the main one) created. *)
Definition fresh_world : World := mkWorld initial_metrics [] 0 1.

(** ** Vocabulary of the statements *)

(** The ratio the coverage-based confidence is computed from. *)
Definition coverage (context : GraphRAGPipeline.FusedContext) : Q :=
  inject_Z (Z.of_nat (length (GraphRAGPipeline.graph_nodes context)
                      + length (GraphRAGPipeline.vector_documents context))) / 10.

(** The outcome of the quality-score call cannot be used as a score: the
    call failed, or its text does not parse as a float. *)
Definition score_unusable (E : Env) (o : Outcome string) : Prop :=
  match o with
  | Raised _ => True
  | Returned text => float_of_text E (py_strip text) = None
  end.

(** A context with an empty history and an empty profile. *)
Definition example_context (query : string) : AgentContext :=
  mkContext query None None (Some []) (Some ∅).

(** An agent that answers with its own role as content and as the
    [agent_role] of its metadata. *)
Definition answering_agent (role : string) (confidence : Q) : Agent :=
  mkAgent role (fun _ =>
    Returned (mkResponse role confidence [] 0 {["agent_role" := VStr role]})).

(** An agent whose [execute] raises. *)
Definition crashing_agent (role : string) : Agent :=
  mkAgent role (fun _ => Raised (mkExn "RuntimeError" "agent crashed")).

(** Every text the generation model returns for the quality prompt, when it
    parses as a float, parses to a score between 0 and 1. *)
Definition scores_in_range (E : Env) : Prop :=
  forall history variables text score,
    generation_model E history quality_prompt variables = Returned text ->
    float_of_text E (py_strip text) = Some score ->
    (0 <= score <= 1)%Q.

(** The state in which the [try] block of [orchestrate_query] starts. *)
Definition world_at_try (E : Env) (w : World) : World :=
  (count_orchestration (time_time E w).2).2.

(** No element is followed by one with a larger key. *)
Definition descending {A} (key : A -> Q) (l : list A) : Prop :=
  Sorted (fun a b => (key b <= key a)%Q) l.

(** What an agent put in its response: everything but the metadata, which
    the coordinator updates. *)
Definition payload (r : AgentResponse) : string * Q * list Document * Q :=
  (content r, confidence r, sources r, processing_time r).

(** The tasks [create_tasks] makes when [n] tasks exist already. *)
Fixpoint tasks_from (n : nat) (agent_assignments : list (Agent * Q)) (context : AgentContext)
    : list (Task * Q) :=
  match agent_assignments with
  | [] => []
  | (agent, priority) :: rest =>
      (mkTask ("Task-" +:+ pretty (S n)) (execute agent context), priority)
      :: tasks_from (S n) rest context
  end.

#[local] Instance Qlt_decision (a b : Q) : Decision (a < b)%Q.
Proof.
  destruct (Qlt_le_dec a b) as [Hlt|Hle]; [left; exact Hlt | right].
  intros Hlt. exact (Qlt_not_le _ _ Hlt Hle).
Defined.

#[local] Instance Qeq_decision (a b : Q) : Decision (a == b)%Q := Qeq_dec a b.

(** Deduplication as the spec words it: walking the list, an item is kept
    when no item with its identifier was seen before it.  [seen] holds the
    identifiers met so far. *)
Fixpoint first_seen (E : Env) (seen : gset string) (l : list Document) : list Document :=
  match l with
  | [] => []
  | source :: rest =>
      if decide (source_id E source ∈ seen) then first_seen E seen rest
      else source :: first_seen E ({[source_id E source]} ∪ seen) rest
  end.

(** The sources of all responses, in the order the loops of
    [_extract_sources] visit them. *)
Definition all_sources (agent_responses : list AgentResponse) : list Document :=
  mjoin (sources <$> agent_responses).

(** Orchestration calls made one after the other, each one awaited before
    the next starts. *)
Fixpoint orchestrate_all (E : Env) (contexts : list AgentContext)
    : Py (list OrchestrationResult) :=
  match contexts with
  | [] => mret []
  | context :: rest =>
      result ← orchestrate_query E context;
      results ← orchestrate_all E rest;
      mret (result :: results)
  end.

(** A call succeeded when its result was built by the steps of the pipeline:
    the result of the [except] block, and only that one, has the key
    [error] in its metadata. *)
Definition succeeded (result : OrchestrationResult) : bool :=
  match result_metadata result !! "error" with None => true | Some _ => false end.

(** The metrics after one more call that took [t] seconds. *)
Definition recorded (m : Metrics) (t : Q) (success : bool) : Metrics :=
  let n := (total_orchestrations m + 1)%Z in
  mkMetrics n
    (if success then (successful_orchestrations m + 1)%Z else successful_orchestrations m)
    (if (0 <? n)%Z
     then ((average_processing_time m * inject_Z (n - 1) + t) / inject_Z n)%Q
     else average_processing_time m).

(** The coroutine leaves the metrics of the orchestrator as they are. *)
Definition keeps_metrics {A} (m : Py A) : Prop :=
  forall w, self_metrics (m w).2 = self_metrics w.

(** A generation call of the orchestrator: on the synthesis prompt or on
    the quality prompt. *)
Definition orchestrator_call (c : ExternalCall) : Prop :=
  exists variables,
    c = GenerationCall synthesis_prompt variables
    \/ c = GenerationCall quality_prompt variables.


(** A text of 100 characters. *)
Definition handbook_opening : string :=
  "Crew members must complete the recurrent safety briefing, the evacuation drill and the fire drill...".

(** The intent [_classify_intent] settles on, from the model's outcome. *)
Definition classified (o : Outcome string) : string :=
  match o with
  | Returned text => py_lower (py_strip text)
  | Raised _ => "general"
  end.

(** The node and the relationship dictionaries a graph value gives rise to. *)
Definition node_of (item : string * GraphValue) : option GraphRAGPipeline.NodeDict :=
  match item.2 with
  | GNode identity labels properties => Some (GraphRAGPipeline.mkNode identity labels properties)
  | _ => None
  end.

Definition relationship_of (item : string * GraphValue)
    : option GraphRAGPipeline.RelationshipDict :=
  match item.2 with
  | GRelationship identity type properties =>
      Some (GraphRAGPipeline.mkRelationship identity type properties)
  | _ => None
  end.

(** The first four steps of [process_query]: what is retrieved for a query. *)
Definition retrieve (E : Env) (query : string)
    : Py (string * GraphRAGPipeline.GraphContext * list Document) :=
  intent ← GraphRAGPipeline._classify_intent E query;
  entities ← GraphRAGPipeline._extract_entities E query;
  graph_context ← GraphRAGPipeline._traverse_graph E query intent entities;
  vector_context ← GraphRAGPipeline._search_vector E query intent;
  mret (intent, graph_context, vector_context).

(** The node has at least one label. *)
Definition labelled (node : GraphRAGPipeline.NodeDict) : Prop :=
  GraphRAGPipeline.node_labels node <> [].

(** The state after further external calls. *)
Definition extend (w : World) (new : list ExternalCall) : World :=
  mkWorld (self_metrics w) (calls w ++ new) (clock_reads w) (tasks_created w).

(** The calls [retrieve] always issues, whatever fails: classification,
    entity extraction, the graph query built for no entity, the embedding
    of the query. *)
Definition retrieval_calls (query intent : string) : list ExternalCall :=
  [GenerationCall intent_prompt [("query", VStr query)];
   GenerationCall entity_prompt [("query", VStr query)];
   GraphQueryCall (GraphRAGPipeline._build_cypher_query intent []);
   EmbeddingCall query].

(** What the graph store answers to the query [process_query] sends it:
    the query built for the classified intent and no entity, after the two
    generation calls. *)
Definition graph_rows (E : Env) (query : string) (w : World)
    : Outcome (list (list (string * GraphValue))) :=
  let intent := classified (generation_model E (calls w) intent_prompt [("query", VStr query)]) in
  graph_execute_query E
    (calls w ++ [GenerationCall intent_prompt [("query", VStr query)];
                 GenerationCall entity_prompt [("query", VStr query)]])
    (GraphRAGPipeline._build_cypher_query intent []).

(** An environment whose generation model and stores answer as given. *)
Definition example_store_env (model : Chain -> Outcome string)
    (rows : Outcome (list (list (string * GraphValue))))
    (documents : Outcome (list Document)) : Env :=
  {| generation_model := fun _ chain _ => model chain;
     registry_route_query := fun _ _ => Returned [];
     clock := fun n => inject_Z (Z.of_nat n);
     float_of_text := decimal_float;
     str_of := fun v => match v with VStr s => s | _ => "<object>" end;
     format_2f := fun q => pretty (Qnum q) +:+ "/" +:+ pretty (Zpos (Qden q));
     task_has_get_name := true;
     graph_execute_query := fun _ _ => rows;
     embed_query := fun _ _ => Returned [(1 # 2)%Q];
     vector_search := fun _ _ _ _ => documents |}.

(** The value is not a node without labels. *)
Definition not_unlabelled (item : string * GraphValue) : Prop :=
  match item.2 with GNode _ [] _ => False | _ => True end.

(** What the embedding model answers when [process_query] has the query
    embedded: after the two generation calls and the graph query. *)
Definition embedded (E : Env) (query : string) (w : World) : Outcome (list Q) :=
  let intent := classified (generation_model E (calls w) intent_prompt [("query", VStr query)]) in
  embed_query E
    (calls w ++ [GenerationCall intent_prompt [("query", VStr query)];
                 GenerationCall entity_prompt [("query", VStr query)];
                 GraphQueryCall (GraphRAGPipeline._build_cypher_query intent [])])
    query.

(** The vector search [_search_vector] issues for an intent: for five
    passages filtered by the intent, when the query could be embedded. *)
Definition vector_search_calls (intent : string) (embedding : Outcome (list Q))
    : list ExternalCall :=
  match embedding with
  | Returned query_embedding => [VectorSearchCall query_embedding 5 intent]
  | Raised _ => []
  end.

(** The generation calls of one orchestration, in the order they were
    issued.  A call that succeeded issued none when no response survived,
    the quality call when one survived, the synthesis call and then the
    quality call when several did.  A call that failed issued an initial
    part of these: nothing, one of the two calls, or the synthesis call and
    then the quality call. *)
Definition issued_in_order (result : OrchestrationResult) (issued : list ExternalCall) : Prop :=
  exists synthesis quality,
    if succeeded result
    then issued = match agent_responses result with
                  | [] => []
                  | [_] => [GenerationCall quality_prompt quality]
                  | _ => [GenerationCall synthesis_prompt synthesis;
                          GenerationCall quality_prompt quality]
                  end
    else issued = []
         \/ issued = [GenerationCall quality_prompt quality]
         \/ issued = [GenerationCall synthesis_prompt synthesis]
         \/ issued = [GenerationCall synthesis_prompt synthesis;
                      GenerationCall quality_prompt quality].

(** Two orchestration calls that overlap on the shared orchestrator: the
    first call reads its start time and counts itself, and is suspended at
    an [await] of its [try] block; the second call is started meanwhile and
    runs to completion; the first call then resumes and completes.  The
    first call is taken to be suspended at the first [await] of the block. *)
Definition orchestrate_overlapping (E : Env) (first second : AgentContext)
    : Py (OrchestrationResult * OrchestrationResult) :=
  start_time ← time_time E;
  _ ← count_orchestration;
  second_result ← orchestrate_query E second;
  first_result ← try_except (orchestrate_steps E first start_time) any_exception
                            (orchestrate_failed E start_time);
  mret (first_result, second_result).

(** * Properties *)

(** ** Arithmetic of the float operations *)

Lemma Qltb_true (a b : Q) : Qltb a b = true <-> (a < b)%Q.
Proof.
  unfold Qltb. rewrite negb_true_iff, <- not_true_iff_false, Qle_bool_iff.
  split; [apply Qnot_le_lt | apply Qlt_not_le].
Qed.

Lemma Qltb_false (a b : Q) : Qltb a b = false <-> (b <= a)%Q.
Proof. unfold Qltb. rewrite negb_false_iff. apply Qle_bool_iff. Qed.

Lemma py_min_Qmin (a b : Q) : (py_min a b == Qmin a b)%Q.
Proof.
  unfold py_min. destruct (Qltb b a) eqn:Hlt.
  - apply Qltb_true in Hlt. symmetry. apply Q.min_r. by apply Qlt_le_weak.
  - apply Qltb_false in Hlt. symmetry. by apply Q.min_l.
Qed.

Lemma py_max_Qmax (a b : Q) : (py_max a b == Qmax a b)%Q.
Proof.
  unfold py_max. destruct (Qltb a b) eqn:Hlt.
  - apply Qltb_true in Hlt. symmetry. apply Q.max_r. by apply Qlt_le_weak.
  - apply Qltb_false in Hlt. symmetry. by apply Q.max_l.
Qed.

Lemma py_min_cases (a b : Q) : (py_min a b = b /\ b < a)%Q \/ (py_min a b = a /\ a <= b)%Q.
Proof.
  unfold py_min. destruct (Qltb b a) eqn:Hlt.
  - left. by apply Qltb_true in Hlt.
  - right. by apply Qltb_false in Hlt.
Qed.

Lemma py_max_cases (a b : Q) : (py_max a b = b /\ a < b)%Q \/ (py_max a b = a /\ b <= a)%Q.
Proof.
  unfold py_max. destruct (Qltb a b) eqn:Hlt.
  - left. by apply Qltb_true in Hlt.
  - right. by apply Qltb_false in Hlt.
Qed.

(** ** The built-ins on examples *)

Example decimal_float_examples :
  decimal_float "1.5" = Some (3 # 2)%Q
  /\ decimal_float "-0.3" = Some (- (3 # 10))%Q
  /\ decimal_float "7" = Some 7%Q
  /\ decimal_float "0.85." = None
  /\ decimal_float "good" = None.
Proof. by vm_compute. Qed.

Example py_strip_example : py_strip ("  0.8 " +:+ nl) = "0.8".
Proof. reflexivity. Qed.

Example py_lower_example : py_lower "Flight_Info" = "flight_info".
Proof. reflexivity. Qed.

Example sort_reverse_example :
  sort_reverse (fun p : string * Q => p.2)
    [("C", 1 # 2); ("A", 9 # 10); ("B", 9 # 10); ("D", 18 # 20)]%Q
  = [("A", 9 # 10); ("B", 9 # 10); ("D", 18 # 20); ("C", 1 # 2)]%Q.
Proof. reflexivity. Qed.

(** ** The coroutine monad *)

Lemma bind_run {A B} (m : Py A) (k : A -> Py B) (w : World) :
  (m ≫= k) w = match m w with
               | (Returned a, w') => k a w'
               | (Raised e, w') => (Raised e, w')
               end.
Proof. reflexivity. Qed.

Lemma ret_run {A} (a : A) (w : World) : (mret a : Py A) w = (Returned a, w).
Proof. reflexivity. Qed.

(** Runs the binds and returns of a coroutine applied to a state. *)
Ltac run_py := unfold mbind, Py_bind, mret, Py_ret, lift, raise; cbn.

(** ** Coverage-based confidence (graph pipeline) *)

Lemma assess_confidence_run (response query : string)
    (context : GraphRAGPipeline.FusedContext) (w : World) :
  GraphRAGPipeline._assess_confidence response query context w
  = (Returned (py_max (1 # 10) (py_min (9 # 10) (coverage context))), w).
Proof. reflexivity. Qed.

Lemma coverage_confidence_bounds (x : Q) :
  (1 # 10 <= py_max (1 # 10) (py_min (9 # 10) x) <= 9 # 10)%Q.
Proof.
  destruct (py_max_cases (1 # 10) (py_min (9 # 10) x)) as [[-> Hlt]|[-> Hle]].
  - split; [by apply Qlt_le_weak|].
    destruct (py_min_cases (9 # 10) x) as [[-> H]|[-> H]];
      [by apply Qlt_le_weak | apply Qle_refl].
  - split; [apply Qle_refl | done].
Qed.

(** C4.  For every number of graph records and of vector passages in the
    fused context, the coverage-based confidence is
    max(0.1, min(0.9, (g + v) / 10.0)); with two graph records and three
    passages it is 0.5, and with no result from either source it is 0.1. *)
Theorem coverage_confidence_formula (response query : string) (w : World) :
  (forall context, exists c,
      GraphRAGPipeline._assess_confidence response query context w = (Returned c, w)
      /\ (c == Qmax (1 # 10) (Qmin (9 # 10) (coverage context)))%Q)
  /\ (forall n1 n2 rels p1 p2 p3 text, exists c,
      GraphRAGPipeline._assess_confidence response query
        (GraphRAGPipeline.mkFused [n1; n2] rels [p1; p2; p3] text) w = (Returned c, w)
      /\ (c == 1 # 2)%Q)
  /\ (forall rels text, exists c,
      GraphRAGPipeline._assess_confidence response query
        (GraphRAGPipeline.mkFused [] rels [] text) w = (Returned c, w)
      /\ (c == 1 # 10)%Q).
Proof.
  split; [|split].
  - intros context. eexists. split; [apply assess_confidence_run|].
    rewrite py_max_Qmax. apply Q.max_compat; [reflexivity | apply py_min_Qmin].
  - intros. eexists. split; [apply assess_confidence_run | reflexivity].
  - intros. eexists. split; [apply assess_confidence_run | reflexivity].
Qed.

(** ** Entity extraction (graph pipeline) *)

Lemma extract_entities_run (E : Env) (query : string) (w : World) :
  GraphRAGPipeline._extract_entities E query w
  = (Returned [], (GraphRAGPipeline.ainvoke E entity_prompt [("query", VStr query)] w).2).
Proof.
  unfold GraphRAGPipeline._extract_entities, try_except. rewrite bind_run.
  unfold GraphRAGPipeline.ainvoke. simpl.
  by destruct (generation_model E (calls w) entity_prompt [("query", VStr query)]).
Qed.

(** C10.  Whatever the generation model answers, and also when it fails,
    entity extraction returns the empty list; the graph traversal that
    follows it in the pipeline is therefore run with no entity. *)
Theorem extract_entities_always_empty (E : Env) (query : string) (w : World) :
  (exists w', GraphRAGPipeline._extract_entities E query w = (Returned [], w'))
  /\ (forall intent,
        (entities ← GraphRAGPipeline._extract_entities E query;
         GraphRAGPipeline._traverse_graph E query intent entities) w
        = (entities ← GraphRAGPipeline._extract_entities E query;
           GraphRAGPipeline._traverse_graph E query intent []) w).
Proof.
  split.
  - eexists. apply extract_entities_run.
  - intros intent. rewrite !bind_run. by rewrite extract_entities_run.
Qed.

(** ** Judged quality (orchestrator) *)

Lemma assess_quality_run (E : Env) (query response : string)
    (r : AgentResponse) (rs : list AgentResponse) (w : World) :
  let variables := quality_variables E query response (r :: rs) in
  _assess_quality E query response (r :: rs) w
  = (Returned match generation_model E (calls w) quality_prompt variables with
              | Returned text => default (1 # 2)%Q (float_of_text E (py_strip text))
              | Raised _ => (1 # 2)%Q
              end,
     (ainvoke E quality_prompt variables w).2).
Proof.
  unfold _assess_quality, try_except at 1. rewrite bind_run.
  unfold ainvoke. simpl.
  destruct (generation_model E (calls w) quality_prompt _) as [text|e]; [|done].
  unfold try_except, py_float.
  by destruct (float_of_text E (py_strip text)).
Qed.

(** C7.  When the quality-score call is issued (at least one response
    survived) and it fails, or returns text that does not parse as a float,
    the quality assessor returns 0.5 and does not raise. *)
Theorem quality_defaults_to_half (E : Env) (query response : string)
    (r : AgentResponse) (rs : list AgentResponse) (w : World) :
  score_unusable E
    (generation_model E (calls w) quality_prompt
       (quality_variables E query response (r :: rs))) ->
  exists w', _assess_quality E query response (r :: rs) w = (Returned (1 # 2)%Q, w').
Proof.
  intros Hbad. eexists. rewrite assess_quality_run. simpl in *.
  destruct (generation_model E (calls w) quality_prompt _) as [text|e]; [|done].
  simpl in Hbad. by rewrite Hbad.
Qed.

Lemma quality_defaults_to_half_witness :
  let E := example_env (fun _ => Returned "The answer is good.") (Returned []) in
  let r := mkResponse "Ask your manager." (4 # 5) [] 0 ∅ in
  score_unusable E
    (generation_model E (calls fresh_world) quality_prompt
       (quality_variables E "How do I request leave?" "Ask your manager." [r]))
  /\ exists w', _assess_quality E "How do I request leave?" "Ask your manager." [r]
                  fresh_world = (Returned (1 # 2)%Q, w').
Proof.
  intros E r.
  assert (Hbad : score_unusable E
    (generation_model E (calls fresh_world) quality_prompt
       (quality_variables E "How do I request leave?" "Ask your manager." [r])))
    by (vm_compute; reflexivity).
  split; [exact Hbad | exact (quality_defaults_to_half E _ _ r [] fresh_world Hbad)].
Defined.

(** ** Synthesis with nothing to synthesise *)

Lemma generate_response_run (E : Env) (query : string)
    (fused_context : GraphRAGPipeline.FusedContext)
    (user_context : option (gmap string PyVal)) (w : World) :
  let variables := GraphRAGPipeline.response_variables query fused_context user_context in
  GraphRAGPipeline._generate_response E query fused_context user_context w
  = (Returned match generation_model E (calls w) response_prompt variables with
              | Returned text => text
              | Raised _ => GraphRAGPipeline.apology_message
              end,
     mkWorld (self_metrics w) (calls w ++ [GenerationCall response_prompt variables])
             (clock_reads w) (tasks_created w)).
Proof.
  unfold GraphRAGPipeline._generate_response, try_except. rewrite bind_run.
  unfold GraphRAGPipeline.ainvoke. simpl.
  by destruct (generation_model E (calls w) response_prompt _).
Qed.

(** C5, as the code has it.  Given no agent response, the orchestrator's
    synthesis returns its fixed message and leaves the process state as it
    was: no generation call is issued.  The graph pipeline's response
    generation issues one generation call whatever the fused context holds,
    and returns its fixed message exactly when that call fails. *)
Theorem synthesis_of_no_contribution (E : Env) (query : string) (w : World) :
  (forall context,
      _synthesize_responses E query [] context w = (Returned unable_message, w))
  /\ (forall fused_context user_context,
      let variables := GraphRAGPipeline.response_variables query fused_context user_context in
      exists w',
        GraphRAGPipeline._generate_response E query fused_context user_context w
        = (Returned match generation_model E (calls w) response_prompt variables with
                    | Returned text => text
                    | Raised _ => GraphRAGPipeline.apology_message
                    end, w')
        /\ calls w' = calls w ++ [GenerationCall response_prompt variables]).
Proof.
  split; [reflexivity|].
  intros fused_context user_context variables. eexists.
  split; [apply generate_response_run | reflexivity].
Qed.

(** C5 fails on the graph pipeline: with both stores empty and a working
    generation model, the pipeline answers with the model's text, obtained
    from a generation call on the empty context. *)
Lemma graph_pipeline_generates_from_empty_context :
  let E := example_env (fun _ => Returned "Flight AA123 is on time.") (Returned []) in
  let run := GraphRAGPipeline.process_query E "What is the status of flight AA123?" None
               fresh_world in
  ~ ((exists r, run.1 = Returned r
                /\ GraphRAGPipeline.answer r = GraphRAGPipeline.apology_message)
     /\ forall variables, GenerationCall response_prompt variables ∉ calls run.2).
Proof.
  intros E run [_ Hnone].
  apply (Hnone [("query", VStr "What is the status of flight AA123?");
                ("graph_context", VStr "");
                ("vector_context", VList []);
                ("user_context", VDict ∅)]).
  vm_compute. do 5 apply list_elem_of_further. apply list_elem_of_here.
Qed.

(** ** The orchestration entry point *)

Lemma bind_returned {A B} (m : Py A) (k : A -> Py B) (w w' : World) (b : B) :
  (m ≫= k) w = (Returned b, w') ->
  exists a w1, m w = (Returned a, w1) /\ k a w1 = (Returned b, w').
Proof.
  rewrite bind_run. destruct (m w) as [[a|e] w1]; [|done].
  intros Hk. by exists a, w1.
Qed.

Lemma orchestrate_query_run (E : Env) (context : AgentContext) (w : World) :
  let start_time := clock E (clock_reads w) in
  orchestrate_query E context w
  = match orchestrate_steps E context start_time (world_at_try E w) with
    | (Returned result, w1) => (Returned result, w1)
    | (Raised e, w1) => orchestrate_failed E start_time e w1
    end.
Proof.
  unfold orchestrate_query, try_except, world_at_try. reflexivity.
Qed.

Lemma orchestrate_failed_run (E : Env) (start_time : Q) (e : PyExn) (w : World) :
  exists w',
    orchestrate_failed E start_time e w
    = (Returned (mkResult
         ("I encountered an error while processing your request: " +:+ exn_str e)
         [] 0%Q [] {["error" := VStr (exn_str e)]}
         (clock E (clock_reads w) - start_time)%Q []), w').
Proof.
  eexists. unfold orchestrate_failed, _update_metrics, set_metrics, get_metrics, time_time.
  run_py. reflexivity.
Qed.

(** The two ways [orchestrate_query] ends. *)
Lemma orchestrate_query_cases (E : Env) (context : AgentContext) (w : World) :
  exists result w',
    orchestrate_query E context w = (Returned result, w')
    /\ match (orchestrate_steps E context (clock E (clock_reads w)) (world_at_try E w)).1 with
       | Raised e =>
           result_confidence result = 0%Q
           /\ result_metadata result !! "error" = Some (VStr (exn_str e))
           /\ agent_responses result = []
           /\ result_sources result = []
       | Returned built => result = built
       end.
Proof.
  rewrite orchestrate_query_run.
  destruct (orchestrate_steps E context _ _) as [[built|e] w1]; simpl.
  - by exists built, w1.
  - destruct (orchestrate_failed_run E (clock E (clock_reads w)) e w1) as [w' ->].
    eexists _, w'. split; [reflexivity|]. simpl.
    split_and!; done || apply lookup_singleton_eq.
Qed.

(** C1.  For every context and every behaviour of the collaborators,
    [orchestrate_query] returns a result and does not raise.  When a step of
    the pipeline raises, the result has confidence 0.0, the exception's text
    under the key [error] of its metadata, no agent response and no source;
    otherwise it is the result the steps built. *)
Theorem orchestrate_query_never_raises (E : Env) (context : AgentContext) (w : World) :
  exists result w',
    orchestrate_query E context w = (Returned result, w')
    /\ match (orchestrate_steps E context (clock E (clock_reads w)) (world_at_try E w)).1 with
       | Raised e =>
           result_confidence result = 0%Q
           /\ result_metadata result !! "error" = Some (VStr (exn_str e))
           /\ agent_responses result = []
           /\ result_sources result = []
       | Returned built => result = built
       end.
Proof. apply orchestrate_query_cases. Qed.

(** ** Range of the confidence *)

Lemma assess_quality_value (E : Env) (query response : string)
    (rs : list AgentResponse) (w : World) :
  exists c w',
    _assess_quality E query response rs w = (Returned c, w')
    /\ (c = 0%Q \/ c = (1 # 2)%Q
        \/ exists history variables text,
             generation_model E history quality_prompt variables = Returned text
             /\ float_of_text E (py_strip text) = Some c).
Proof.
  destruct rs as [|r rs].
  - exists 0%Q, w. split; [reflexivity | by left].
  - eexists _, _. split; [apply assess_quality_run|]. simpl.
    destruct (generation_model E (calls w) quality_prompt _) as [text|e] eqn:Hcall;
      [|by right; left].
    destruct (float_of_text E (py_strip text)) as [score|] eqn:Hparse;
      [|by right; left].
    right; right. by eexists (calls w), _, text.
Qed.

Lemma orchestrate_steps_confidence (E : Env) (context : AgentContext) (start_time : Q)
    (w w' : World) (result : OrchestrationResult) :
  orchestrate_steps E context start_time w = (Returned result, w') ->
  exists query response rs w1 w2,
    _assess_quality E query response rs w1 = (Returned (result_confidence result), w2).
Proof.
  unfold orchestrate_steps. intros Hrun.
  apply bind_returned in Hrun as (assignments & w1 & _ & Hrun).
  apply bind_returned in Hrun as (responses & w2 & _ & Hrun).
  apply bind_returned in Hrun as (final & w3 & _ & Hrun).
  apply bind_returned in Hrun as (c & w4 & Hquality & Hrun).
  apply bind_returned in Hrun as (meta & w5 & _ & Hrun).
  apply bind_returned in Hrun as (now & w6 & _ & Hrun).
  apply bind_returned in Hrun as (u & w7 & _ & Hrun).
  rewrite ret_run in Hrun. injection Hrun as <- _.
  by exists (query context), final, responses, w3, w4.
Qed.

(** C2, as the code has it.  The coverage-based confidence always lies in
    [0.1, 0.9].  The confidence of an orchestration result lies in [0, 1]
    provided the scores the generation model returns for the quality prompt
    do: the assessor returns a parsed score as it is, so the bound is the
    model's, not the assessor's. *)
Theorem confidence_within_unit_interval (E : Env) :
  scores_in_range E ->
  (forall response query context w, exists c,
      GraphRAGPipeline._assess_confidence response query context w = (Returned c, w)
      /\ (1 # 10 <= c <= 9 # 10)%Q)
  /\ (forall context w, exists result w',
      orchestrate_query E context w = (Returned result, w')
      /\ (0 <= result_confidence result <= 1)%Q).
Proof.
  intros Hrange. split.
  - intros response query context w. eexists. split; [apply assess_confidence_run|].
    apply coverage_confidence_bounds.
  - intros context w.
    destruct (orchestrate_query_cases E context w) as (result & w' & Hrun & Hcases).
    exists result, w'. split; [done|].
    destruct (orchestrate_steps E context _ _) as [[built|e] w1] eqn:Hsteps; simpl in Hcases.
    + subst built. apply orchestrate_steps_confidence in Hsteps
        as (query & response & rs & w2 & w3 & Hquality).
      destruct (assess_quality_value E query response rs w2)
        as (c & w4 & Hc & Hvalue).
      rewrite Hquality in Hc. injection Hc as -> _.
      destruct Hvalue as [-> | [-> | (history & variables & text & Hcall & Hparse)]];
        [done | done | by eapply Hrange].
    + destruct Hcases as (-> & _). done.
Qed.

Lemma confidence_within_unit_interval_witness :
  let E := example_env (fun _ => Returned " 0.8 ")
             (Returned [(answering_agent "benefits" (4 # 5), 1%Q)]) in
  scores_in_range E
  /\ (forall response query context w, exists c,
        GraphRAGPipeline._assess_confidence response query context w = (Returned c, w)
        /\ (1 # 10 <= c <= 9 # 10)%Q)
  /\ (forall context w, exists result w',
        orchestrate_query E context w = (Returned result, w')
        /\ (0 <= result_confidence result <= 1)%Q).
Proof.
  intros E.
  assert (Hrange : scores_in_range E).
  { intros history variables text score Hcall Hparse.
    injection Hcall as <-. vm_compute in Hparse. injection Hparse as <-. done. }
  split; [exact Hrange | exact (confidence_within_unit_interval E Hrange)].
Defined.

(** C2 fails on the orchestrator: a score the model returns outside [0, 1]
    becomes the confidence of the result as it is. *)
Lemma quality_score_is_not_clamped :
  let agents := Returned [(answering_agent "benefits" (4 # 5), 1%Q)] in
  let context := example_context "How many vacation days do I have?" in
  (exists result w',
      orchestrate_query (example_env (fun _ => Returned "1.5") agents) context fresh_world
      = (Returned result, w')
      /\ ~ (0 <= result_confidence result <= 1)%Q)
  /\ (exists result w',
      orchestrate_query (example_env (fun _ => Returned "-0.3") agents) context fresh_world
      = (Returned result, w')
      /\ ~ (0 <= result_confidence result <= 1)%Q).
Proof.
  intros agents context. split.
  - eexists _, _. split; [vm_compute; reflexivity|].
    simpl. intros [_ Hhi]. by vm_compute in Hhi.
  - eexists _, _. split; [vm_compute; reflexivity|].
    simpl. intros [Hlo _]. by vm_compute in Hlo.
Qed.

(** ** Sorting by descending key *)

Section SortReverse.
Context {A : Type} (key : A -> Q).

Lemma insert_reverse_perm (x : A) (l : list A) : insert_reverse key x l ≡ₚ x :: l.
Proof.
  induction l as [|y l IH]; simpl; [done|].
  destruct (Qle_bool (key y) (key x)); [done|].
  rewrite IH. apply Permutation_swap.
Qed.

Lemma sort_reverse_perm (l : list A) : sort_reverse key l ≡ₚ l.
Proof.
  induction l as [|x l IH]; simpl; [done|].
  rewrite insert_reverse_perm. by constructor.
Qed.

Lemma insert_reverse_descending (x : A) (l : list A) :
  descending key l -> descending key (insert_reverse key x l).
Proof.
  unfold descending. induction l as [|y l IH]; intros Hl; simpl.
  - by repeat constructor.
  - destruct (Qle_bool (key y) (key x)) eqn:Hle.
    + apply Qle_bool_iff in Hle. constructor; [exact Hl | by constructor].
    + assert (Hxy : (key x <= key y)%Q).
      { apply Qlt_le_weak, Qnot_le_lt. intros H%Qle_bool_iff. congruence. }
      apply Sorted_inv in Hl as [Hl Hhd]. constructor; [by apply IH|].
      destruct l as [|z l]; simpl; [by constructor|].
      destruct (Qle_bool (key z) (key x)); constructor; [done|].
      by apply HdRel_inv in Hhd.
Qed.

Lemma sort_reverse_descending (l : list A) : descending key (sort_reverse key l).
Proof.
  induction l as [|x l IH]; simpl; [constructor|].
  by apply insert_reverse_descending.
Qed.

(** Inserting [x] puts it in front of the elements of its own key. *)
Lemma insert_reverse_filter (p : Q) (x : A) (l : list A) :
  filter (fun a => (key a == p)%Q) (insert_reverse key x l)
  = filter (fun a => (key a == p)%Q) (x :: l).
Proof.
  induction l as [|y l IH]; simpl; [done|].
  destruct (Qle_bool (key y) (key x)) eqn:Hle; [done|].
  rewrite filter_cons, IH, !filter_cons.
  destruct (decide (key y == p)%Q) as [Hy|Hy]; [|done].
  destruct (decide (key x == p)%Q) as [Hx|Hx]; [|done].
  exfalso. assert (Hyx : (key y <= key x)%Q) by (rewrite Hy, Hx; apply Qle_refl).
  apply Qle_bool_iff in Hyx. congruence.
Qed.

(** The sort is stable: the elements of any one key keep their order. *)
Lemma sort_reverse_stable (p : Q) (l : list A) :
  filter (fun a => (key a == p)%Q) (sort_reverse key l)
  = filter (fun a => (key a == p)%Q) l.
Proof.
  induction l as [|x l IH]; simpl; [done|].
  by rewrite insert_reverse_filter, !filter_cons, IH.
Qed.

End SortReverse.

(** ** The execution coordinator *)

Section ExecuteAgents.
Variable E : Env.
Variable context : AgentContext.

Lemma create_tasks_run (agent_assignments : list (Agent * Q)) (w : World) :
  create_tasks agent_assignments context w
  = (Returned (tasks_from (tasks_created w) agent_assignments context),
     mkWorld (self_metrics w) (calls w) (clock_reads w)
             (length agent_assignments + tasks_created w)).
Proof.
  revert w. induction agent_assignments as [|[agent priority] rest IH]; intros w.
  - by destruct w.
  - simpl. rewrite bind_run. unfold create_task at 1.
    rewrite bind_run, IH. simpl. do 3 f_equal. lia.
Qed.

(** When every agent returns a response, [gather] returns them all, in the
    order of the assignments. *)
Lemma gather_all_returned (n : nat) (agent_assignments : list (Agent * Q))
    (produced : list AgentResponse) :
  Forall2 (fun assignment response => execute assignment.1 context = Returned response)
          agent_assignments produced ->
  gather ((tasks_from n agent_assignments context).*1) = Returned produced.
Proof.
  intros Hall. revert n.
  induction Hall as [|[agent priority] response rest produced Hrun _ IH]; intros n; [done|].
  simpl in *. by rewrite Hrun, IH.
Qed.

(** When some agent raises, so does [gather]. *)
Lemma gather_some_raised (n : nat) (agent_assignments : list (Agent * Q)) :
  Exists (fun assignment => is_raised (execute assignment.1 context) = true)
         agent_assignments ->
  exists e, gather ((tasks_from n agent_assignments context).*1) = Raised e.
Proof.
  intros Hsome. revert n.
  induction Hsome as [[agent priority] rest Hraised|[agent priority] rest _ IH]; intros n; simpl in *.
  - destruct (execute agent context) as [r|e]; [done | by exists e].
  - destruct (execute agent context) as [r|e]; [|by exists e].
    destruct (IH (S n)) as [e He]. exists e. unfold fmap in He. by rewrite He.
Qed.

Lemma execute_agents_run (agent_assignments : list (Agent * Q)) (w : World) :
  let tasks := tasks_from (tasks_created w) agent_assignments context in
  let w' := mkWorld (self_metrics w) (calls w) (clock_reads w)
                    (length agent_assignments + tasks_created w) in
  _execute_agents E agent_assignments context w
  = match gather (tasks.*1) with
    | Returned results =>
        (Returned (sort_reverse priority_key (successful_responses E (zip tasks results))), w')
    | Raised e => (Raised e, w')
    end.
Proof.
  unfold _execute_agents. rewrite bind_run, create_tasks_run, bind_run. unfold lift.
  by destruct (gather _).
Qed.

Lemma priority_key_tag (task : Task) (priority : Q) (response : AgentResponse) :
  priority_key (tag_response E task priority response) = priority.
Proof.
  unfold priority_key, tag_response. simpl.
  by rewrite lookup_insert_ne, lookup_insert_eq.
Qed.

Lemma role_of_tag (task : Task) (priority : Q) (response : AgentResponse) :
  role_of (tag_response E task priority response) = get_name_or_unknown E task.
Proof. unfold role_of, tag_response. simpl. by rewrite lookup_insert_eq. Qed.

(** The loop keeps the responses of positive confidence, in order. *)
Lemma successful_responses_payload (tasks : list (Task * Q)) (results : list AgentResponse) :
  length tasks = length results ->
  payload <$> successful_responses E (zip tasks results)
  = payload <$> filter (fun r => (0 < confidence r)%Q) results.
Proof.
  revert results. induction tasks as [|[task priority] tasks IH];
    intros [|response results] Hlen; try done.
  simpl. rewrite filter_cons.
  destruct (Qltb 0 (confidence response)) eqn:Hpos.
  - apply Qltb_true in Hpos. rewrite decide_True by done.
    rewrite !fmap_cons. f_equal. apply IH. by injection Hlen.
  - apply Qltb_false in Hpos. rewrite decide_False by by apply Qle_not_lt.
    apply IH. by injection Hlen.
Qed.

Lemma tasks_from_length (n : nat) (agent_assignments : list (Agent * Q)) :
  length (tasks_from n agent_assignments context) = length agent_assignments.
Proof.
  revert n. induction agent_assignments as [|[agent priority] rest IH]; intros n; simpl; [done|].
  by rewrite IH.
Qed.

(** C3, as the code has it.  When every assigned agent returns a response,
    those that report failure by a confidence of 0 or less are left out
    without any effect on the others: the coordinator returns the responses
    of positive confidence, all of them and nothing else. *)
Theorem execute_agents_keeps_successful (agent_assignments : list (Agent * Q))
    (produced : list AgentResponse) (w : World) :
  Forall2 (fun assignment response => execute assignment.1 context = Returned response)
          agent_assignments produced ->
  exists responses w',
    _execute_agents E agent_assignments context w = (Returned responses, w')
    /\ payload <$> responses ≡ₚ payload <$> filter (fun r => (0 < confidence r)%Q) produced.
Proof.
  intros Hall. eexists _, _. rewrite execute_agents_run.
  rewrite (gather_all_returned _ _ produced Hall). split; [reflexivity|].
  rewrite sort_reverse_perm, successful_responses_payload; [done|].
  rewrite tasks_from_length. by eapply Forall2_length.
Qed.

(** An exception raised by one agent leaves the coordinator as it is. *)
Lemma execute_agents_raises (agent_assignments : list (Agent * Q)) (w : World) :
  Exists (fun assignment => is_raised (execute assignment.1 context) = true)
         agent_assignments ->
  exists e w', _execute_agents E agent_assignments context w = (Raised e, w').
Proof.
  intros Hsome. rewrite execute_agents_run.
  destruct (gather_some_raised (tasks_created w) _ Hsome) as [e ->]. by eexists _, _.
Qed.

(** What the coordinator returns is sorted by descending priority. *)
Lemma execute_agents_descending (agent_assignments : list (Agent * Q))
    (w w' : World) (responses : list AgentResponse) :
  _execute_agents E agent_assignments context w = (Returned responses, w') ->
  descending priority_key responses.
Proof.
  rewrite execute_agents_run. destruct (gather _) as [results|e]; [|done].
  intros [= <- _]. apply sort_reverse_descending.
Qed.

End ExecuteAgents.

Lemma execute_agents_keeps_successful_witness :
  let E := example_env (fun _ => Returned "0.9") (Returned []) in
  let context := example_context "When is payday?" in
  let agent_assignments :=
    [(answering_agent "payroll" (4 # 5), 1%Q); (answering_agent "benefits" 0, 1%Q)] in
  let produced :=
    [mkResponse "payroll" (4 # 5) [] 0 {["agent_role" := VStr "payroll"]};
     mkResponse "benefits" 0 [] 0 {["agent_role" := VStr "benefits"]}] in
  Forall2 (fun assignment response => execute assignment.1 context = Returned response)
          agent_assignments produced
  /\ exists responses w',
       _execute_agents E agent_assignments context fresh_world = (Returned responses, w')
       /\ payload <$> responses ≡ₚ payload <$> filter (fun r => (0 < confidence r)%Q) produced.
Proof.
  intros E context agent_assignments produced.
  assert (Hall : Forall2
    (fun assignment response => execute assignment.1 context = Returned response)
    agent_assignments produced) by (repeat constructor).
  split; [exact Hall|].
  exact (execute_agents_keeps_successful E context agent_assignments produced fresh_world Hall).
Defined.

(** C3 fails when an agent raises: the exception leaves the coordinator, the
    response of the agent that completed is not returned, and the
    orchestration result carries no agent response. *)
Lemma raising_agent_discards_siblings :
  let agent_assignments :=
    [(answering_agent "payroll" (4 # 5), 1%Q); (crashing_agent "benefits", 1%Q)] in
  let E := example_env (fun _ => Returned "0.9") (Returned agent_assignments) in
  let context := example_context "When is payday?" in
  (exists w', _execute_agents E agent_assignments context fresh_world
              = (Raised (mkExn "RuntimeError" "agent crashed"), w'))
  /\ (exists result w',
        orchestrate_query E context fresh_world = (Returned result, w')
        /\ agent_responses result = []).
Proof.
  intros agent_assignments E context. split.
  - eexists. vm_compute. reflexivity.
  - eexists _, _. split; [vm_compute; reflexivity | reflexivity].
Qed.

(** ** Order and content of [agent_sequence] *)

(** Every response the loop keeps is recorded under the name of its task. *)
Lemma successful_responses_roles (E : Env) (pairs : list ((Task * Q) * AgentResponse)) :
  Forall (fun r => exists task, task ∈ pairs.*1.*1 /\ role_of r = get_name_or_unknown E task)
         (successful_responses E pairs).
Proof.
  induction pairs as [|[[task priority] response] pairs IH]; simpl; [constructor|].
  assert (Hrest : Forall
    (fun r => exists task', task' ∈ task :: pairs.*1.*1
                            /\ role_of r = get_name_or_unknown E task')
    (successful_responses E pairs)).
  { eapply Forall_impl; [exact IH|]. intros r (task' & Hin & Hrole).
    exists task'. split; [by apply list_elem_of_further | done]. }
  destruct (Qltb 0 (confidence response)); [|done].
  constructor; [|done]. exists task. split; [apply list_elem_of_here | apply role_of_tag].
Qed.

Lemma gather_length (tasks : list Task) (results : list AgentResponse) :
  gather tasks = Returned results -> length results = length tasks.
Proof.
  revert results. induction tasks as [|task tasks IH]; intros results; simpl.
  - by intros [= <-].
  - destruct (task_outcome task) as [response|e]; [|done].
    destruct (gather tasks) as [responses|e]; [|done].
    intros [= <-]. simpl. by rewrite (IH responses).
Qed.

(** In every run of the coordinator, the [agent_role] of a returned response
    is the name of one of the tasks created for the assignments. *)
Lemma execute_agents_roles (E : Env) (agent_assignments : list (Agent * Q))
    (context : AgentContext) (w w' : World) (responses : list AgentResponse) :
  _execute_agents E agent_assignments context w = (Returned responses, w') ->
  Forall (fun r => exists task,
            task ∈ (tasks_from (tasks_created w) agent_assignments context).*1
            /\ role_of r = get_name_or_unknown E task)
         responses.
Proof.
  rewrite execute_agents_run.
  destruct (gather _) as [results|e] eqn:Hgather; [|done].
  intros [= <- _]. rewrite sort_reverse_perm.
  apply gather_length in Hgather. rewrite length_fmap in Hgather.
  pose proof (successful_responses_roles E
    (zip (tasks_from (tasks_created w) agent_assignments context) results)) as Hroles.
  rewrite fst_zip in Hroles by lia. exact Hroles.
Qed.

(** C6 at the assignments [C (0.5), A (0.9), B (0.9)].  The responses come
    out in the order A, B, C: descending priority, A before B as assigned.
    [agent_sequence] follows that order, but what it lists are the names of
    the asyncio tasks that ran the agents, not the agents' identifiers. *)
Theorem agent_sequence_lists_task_names :
  let agent_assignments :=
    [(answering_agent "C" (4 # 5), (1 # 2)%Q);
     (answering_agent "A" (4 # 5), (9 # 10)%Q);
     (answering_agent "B" (4 # 5), (9 # 10)%Q)] in
  let E := example_env (fun _ => Returned "0.9") (Returned agent_assignments) in
  exists result w',
    orchestrate_query E (example_context "Who approves my leave?") fresh_world
    = (Returned result, w')
    /\ content <$> agent_responses result = ["A"; "B"; "C"]
    /\ agent_sequence result = [VStr "Task-3"; VStr "Task-4"; VStr "Task-2"].
Proof.
  intros agent_assignments E. eexists _, _.
  split; [vm_compute; reflexivity|]. by vm_compute.
Qed.

(** ** Deduplication of sources *)

Section ExtractSources.
Variable E : Env.

Lemma add_sources_first_seen (l all : list Document) (seen : gset string) :
  (foldl (add_source E) (all, seen) l).1 = all ++ first_seen E seen l.
Proof.
  revert all seen. induction l as [|source rest IH]; intros all seen; simpl.
  - by rewrite app_nil_r.
  - unfold add_source at 2. simpl.
    destruct (decide (source_id E source ∈ seen)); [apply IH|].
    rewrite IH. by rewrite <- app_assoc.
Qed.

Lemma nested_loops_flatten (rs : list AgentResponse) (acc : list Document * gset string) :
  foldl (fun acc response => foldl (add_source E) acc (sources response)) acc rs
  = foldl (add_source E) acc (all_sources rs).
Proof.
  revert acc. induction rs as [|r rs IH]; intros acc; [done|].
  unfold all_sources in *. simpl. by rewrite foldl_app, IH.
Qed.

(** The code computes the deduplication of the spec. *)
Lemma extract_sources_first_seen (rs : list AgentResponse) :
  _extract_sources E rs = first_seen E ∅ (all_sources rs).
Proof.
  unfold _extract_sources. rewrite nested_loops_flatten. apply add_sources_first_seen.
Qed.

Lemma first_seen_filter (key : string) (seen : gset string) (l : list Document) :
  filter (fun s => source_id E s = key) (first_seen E seen l)
  = if decide (key ∈ seen) then []
    else take 1 (filter (fun s => source_id E s = key) l).
Proof.
  revert seen. induction l as [|source rest IH]; intros seen; simpl.
  - by destruct (decide (key ∈ seen)).
  - destruct (decide (source_id E source ∈ seen)) as [Hseen|Hnew].
    + rewrite IH. destruct (decide (key ∈ seen)) as [|Hkey]; [done|].
      rewrite filter_cons, decide_False; [done|]. by intros <-.
    + rewrite !filter_cons. destruct (decide (source_id E source = key)) as [<-|Hne].
      * rewrite IH, decide_True by set_solver. by rewrite decide_False.
      * rewrite IH. destruct (decide (key ∈ seen)) as [Hkey|Hkey].
        -- by rewrite decide_True by set_solver.
        -- rewrite decide_False; [done|].
           rewrite elem_of_union, elem_of_singleton. intros [Heq|Hin]; [|done].
           by apply Hne.
Qed.

Lemma first_seen_idempotent (seen : gset string) (l : list Document) :
  first_seen E seen (first_seen E seen l) = first_seen E seen l.
Proof.
  revert seen. induction l as [|source rest IH]; intros seen; simpl; [done|].
  destruct (decide (source_id E source ∈ seen)) as [Hseen|Hnew]; [apply IH|].
  simpl. rewrite decide_False by done. by rewrite IH.
Qed.

Lemma fuse_context_documents (graph_context : GraphRAGPipeline.GraphContext)
    (vector_context : list Document) (w : World) :
  match (GraphRAGPipeline._fuse_context E graph_context vector_context w).1 with
  | Returned fused =>
      GraphRAGPipeline.vector_documents fused = page_content <$> vector_context
  | Raised _ => True
  end.
Proof.
  unfold GraphRAGPipeline._fuse_context. rewrite bind_run. unfold lift.
  by destruct (GraphRAGPipeline._combine_contexts E graph_context vector_context).
Qed.

(** C9, as the code has it.  Source extraction in the orchestrator keeps, of
    the sources that share an identifier (the first 100 characters of the
    content joined to the [source] metadata), exactly the one met first, and
    extracting again from its own output changes nothing.  The fusion step
    of the graph pipeline drops nothing: the fused context holds the content
    of every passage, in order. *)
Theorem extract_sources_keeps_first_seen (rs : list AgentResponse) :
  (forall key : string,
      filter (fun s => source_id E s = key) (_extract_sources E rs)
      = take 1 (filter (fun s => source_id E s = key) (all_sources rs)))
  /\ (forall content confidence processing_time metadata,
      _extract_sources E
        [mkResponse content confidence (_extract_sources E rs) processing_time metadata]
      = _extract_sources E rs)
  /\ (forall graph_context vector_context w,
      match (GraphRAGPipeline._fuse_context E graph_context vector_context w).1 with
      | Returned fused =>
          GraphRAGPipeline.vector_documents fused = page_content <$> vector_context
      | Raised _ => True
      end).
Proof.
  split_and!.
  - intros key. rewrite extract_sources_first_seen, first_seen_filter.
    by rewrite decide_False by set_solver.
  - intros. rewrite !extract_sources_first_seen. unfold all_sources. simpl.
    rewrite app_nil_r. apply first_seen_idempotent.
  - apply fuse_context_documents.
Qed.

End ExtractSources.

(** C9 fails on the graph pipeline: its fusion step keeps every passage,
    also one that repeats an earlier passage word for word. *)
Lemma fuse_context_keeps_duplicates :
  let E := example_env (fun _ => Returned "ok") (Returned []) in
  let passage := mkDocument "Boarding closes 15 minutes before departure."
                            {["source" := VStr "handbook"]} in
  exists fused w',
    GraphRAGPipeline._fuse_context E (GraphRAGPipeline.mkGraphContext [] [] [] None)
      [passage; passage] fresh_world = (Returned fused, w')
    /\ GraphRAGPipeline.vector_documents fused
       = ["Boarding closes 15 minutes before departure.";
          "Boarding closes 15 minutes before departure."].
Proof. intros E passage. eexists _, _. split; [vm_compute; reflexivity | reflexivity]. Qed.

(** ** Metrics *)

Section Metrics.
Variable E : Env.

Lemma keeps_ret {A} (a : A) : keeps_metrics (mret a : Py A).
Proof. by intros w. Qed.

Lemma keeps_lift {A} (o : Outcome A) : keeps_metrics (lift o).
Proof. by intros w. Qed.

Lemma keeps_bind {A B} (m : Py A) (k : A -> Py B) :
  keeps_metrics m -> (forall a, keeps_metrics (k a)) -> keeps_metrics (m ≫= k).
Proof.
  intros Hm Hk w. rewrite bind_run. specialize (Hm w).
  destruct (m w) as [[a|e] w1]; simpl in *; [|done]. by rewrite Hk.
Qed.

Lemma keeps_try {A} (body : Py A) (handles : PyExn -> bool) (handler : PyExn -> Py A) :
  keeps_metrics body -> (forall e, keeps_metrics (handler e)) ->
  keeps_metrics (try_except body handles handler).
Proof.
  intros Hbody Hhandler w. unfold try_except. specialize (Hbody w).
  destruct (body w) as [[a|e] w1]; simpl in *; [done|].
  destruct (handles e); [|done]. by rewrite Hhandler.
Qed.

Lemma keeps_time_time : keeps_metrics (time_time E).
Proof. by intros w. Qed.

Lemma keeps_ainvoke (chain : Chain) (variables : list (string * PyVal)) :
  keeps_metrics (ainvoke E chain variables).
Proof. by intros w. Qed.

Lemma keeps_execute_agents (agent_assignments : list (Agent * Q)) (context : AgentContext) :
  keeps_metrics (_execute_agents E agent_assignments context).
Proof. intros w. rewrite execute_agents_run. by destruct (gather _). Qed.

Lemma keeps_synthesize (query : string) (rs : list AgentResponse) (context : AgentContext) :
  keeps_metrics (_synthesize_responses E query rs context).
Proof. destruct rs as [|r [|r' rs]]; try apply keeps_ret. apply keeps_ainvoke. Qed.

Lemma keeps_assess_quality (query response : string) (rs : list AgentResponse) :
  keeps_metrics (_assess_quality E query response rs).
Proof.
  destruct rs as [|r rs]; [apply keeps_ret|].
  intros w. by rewrite assess_quality_run.
Qed.

Lemma generate_metadata_succeeded (rs : list AgentResponse) (context : AgentContext)
    (metadata : gmap string PyVal) :
  _generate_metadata rs context = Returned metadata -> metadata !! "error" = None.
Proof.
  unfold _generate_metadata.
  destruct (user_profile context); [|done].
  destruct (conversation_history context); [|done].
  by intros [= <-].
Qed.

Lemma update_metrics_run (t : Q) (success : bool) (w : World) :
  _update_metrics t success w
  = (Returned tt,
     mkWorld (self_metrics (_update_metrics t success w).2) (calls w) (clock_reads w)
             (tasks_created w)).
Proof. reflexivity. Qed.

(** Runs one step of a chain of binds whose first coroutine keeps the
    metrics; the case in which the step raises is closed. *)
Ltac step_keeping lemma :=
  rewrite bind_run;
  match goal with
  | |- context [match ?m ?w with _ => _ end] =>
      let Hkeep := fresh "Hkeep" in
      assert (Hkeep : self_metrics (m w).2 = self_metrics w) by apply lemma;
      destruct (m w) as [[?|?] ?]; simpl in Hkeep; [|simpl; congruence]
  end.

Lemma orchestrate_steps_metrics (context : AgentContext) (start_time : Q) (w : World) :
  match orchestrate_steps E context start_time w with
  | (Returned result, w') =>
      succeeded result = true
      /\ self_metrics w'
         = self_metrics (_update_metrics (result_processing_time result) true w).2
  | (Raised e, w') => self_metrics w' = self_metrics w
  end.
Proof.
  unfold orchestrate_steps.
  step_keeping (keeps_lift (registry_route_query E (query context) context)).
  step_keeping keeps_execute_agents.
  step_keeping keeps_synthesize.
  step_keeping keeps_assess_quality.
  rewrite bind_run. unfold lift at 1.
  destruct (_generate_metadata _ context) as [metadata|e] eqn:Hmeta; [|simpl; congruence].
  step_keeping keeps_time_time.
  rewrite bind_run, update_metrics_run, ret_run. simpl. split.
  - unfold succeeded. simpl. by rewrite (generate_metadata_succeeded _ _ _ Hmeta).
  - match goal with
    | Hlast : self_metrics ?w' = _ |- context [self_metrics ?w'] =>
        replace (self_metrics w') with (self_metrics w) by congruence
    end.
    reflexivity.
Qed.

(** One call counts itself and records its own time and success. *)
Lemma orchestrate_query_metrics (context : AgentContext) (w : World) :
  exists result w',
    orchestrate_query E context w = (Returned result, w')
    /\ self_metrics w'
       = recorded (self_metrics w) (result_processing_time result) (succeeded result).
Proof.
  rewrite orchestrate_query_run.
  pose proof (orchestrate_steps_metrics context (clock E (clock_reads w)) (world_at_try E w))
    as Hsteps.
  destruct (orchestrate_steps E context _ _) as [[result|e] w1].
  - destruct Hsteps as [Hsucceeded Hmetrics]. exists result, w1.
    split; [done|]. by rewrite Hmetrics, Hsucceeded.
  - destruct (orchestrate_failed_run E (clock E (clock_reads w)) e w1) as [w' Hfailed].
    eexists _, w'. split; [exact Hfailed|].
    unfold orchestrate_failed, _update_metrics, set_metrics, get_metrics, time_time in Hfailed.
    revert Hfailed. run_py. intros [= <-]. simpl. rewrite Hsteps. reflexivity.
Qed.

(** [succeeded] tells the two blocks of [orchestrate_query] apart. *)
Lemma succeeded_iff_steps_returned (context : AgentContext) (w : World) :
  exists result w',
    orchestrate_query E context w = (Returned result, w')
    /\ succeeded result
       = negb (is_raised
                 (orchestrate_steps E context (clock E (clock_reads w)) (world_at_try E w)).1).
Proof.
  rewrite orchestrate_query_run.
  pose proof (orchestrate_steps_metrics context (clock E (clock_reads w)) (world_at_try E w))
    as Hsteps.
  destruct (orchestrate_steps E context _ _) as [[result|e] w1].
  - destruct Hsteps as [Hsucceeded _]. by exists result, w1.
  - destruct (orchestrate_failed_run E (clock E (clock_reads w)) e w1) as [w' ->].
    by eexists _, w'.
Qed.

Lemma orchestrate_all_metrics (contexts : list AgentContext) (w : World) :
  exists results w',
    orchestrate_all E contexts w = (Returned results, w')
    /\ length results = length contexts
    /\ self_metrics w'
       = foldl (fun m r => recorded m (result_processing_time r) (succeeded r))
               (self_metrics w) results.
Proof.
  revert w. induction contexts as [|context rest IH]; intros w.
  - by exists [], w.
  - destruct (orchestrate_query_metrics context w) as (result & w1 & Hrun & Hmetrics).
    destruct (IH w1) as (results & w' & Hrest & Hlen & Hfold).
    exists (result :: results), w'. simpl.
    rewrite bind_run, Hrun, bind_run, Hrest, ret_run.
    split_and!; [done | by rewrite Hlen | by rewrite Hfold, Hmetrics].
Qed.

End Metrics.

(** The running counts and the running mean, from any metrics with a
    non-negative count. *)
Lemma recorded_all (results : list OrchestrationResult) (m : Metrics) :
  (0 <= total_orchestrations m)%Z ->
  let m' := foldl (fun m r => recorded m (result_processing_time r) (succeeded r)) m results in
  total_orchestrations m' = (total_orchestrations m + Z.of_nat (length results))%Z
  /\ successful_orchestrations m'
     = (successful_orchestrations m
        + Z.of_nat (length (filter (fun r => succeeded r = true) results)))%Z
  /\ (average_processing_time m' * inject_Z (total_orchestrations m')
      == average_processing_time m * inject_Z (total_orchestrations m)
         + py_sum (result_processing_time <$> results))%Q.
Proof.
  revert m. induction results as [|r results IH]; intros m Hpos; simpl.
  - split_and!; [lia | lia | ring].
  - set (m1 := recorded m (result_processing_time r) (succeeded r)).
    assert (Htotal : total_orchestrations m1 = (total_orchestrations m + 1)%Z) by done.
    destruct (IH m1) as (IHtotal & IHsucc & IHavg); [lia|].
    split_and!.
    + rewrite IHtotal, Htotal. lia.
    + rewrite IHsucc, filter_cons. unfold m1, recorded.
      cbn [successful_orchestrations].
      destruct (succeeded r);
        [rewrite decide_True by done | rewrite decide_False by done];
        rewrite ?length_cons; lia.
    + rewrite IHavg. unfold m1, recorded, py_sum. simpl.
      assert (Hlt : (0 <? total_orchestrations m + 1)%Z = true) by (apply Z.ltb_lt; lia).
      rewrite Hlt.
      replace (total_orchestrations m + 1 - 1)%Z with (total_orchestrations m) by lia.
      assert (Hnz : ~ (inject_Z (total_orchestrations m + 1) == 0)%Q).
      { unfold Qeq. simpl. lia. }
      unfold fmap. field. exact Hnz.
Qed.

(** C8.  The average processing time is not the arithmetic mean of the
    recorded times when calls overlap.  Two calls are made on a fresh
    orchestrator, the second while the first is suspended in its [try]
    block; both succeed, and their recorded times are 3 and 1.  The
    snapshot then reports two attempts, two successes, a success rate of 1,
    and an average of 7/4, where the mean is 2: [orchestrate_query] counts a
    call when it starts, and [_update_metrics] divides by that count when a
    call ends. *)
Theorem overlapping_orchestrations_miss_the_mean :
  let E := example_env (fun _ => Returned "0.8")
             (Returned [(answering_agent "policy" (9 # 10), 1%Q)]) in
  exists first_result second_result w snapshot success_rate average,
    orchestrate_overlapping E (example_context "How do I enrol in the health plan?")
      (example_context "Where do I collect my badge?") fresh_world
    = (Returned (first_result, second_result), w)
    /\ succeeded first_result = true
    /\ succeeded second_result = true
    /\ (result_processing_time first_result == 3)%Q
    /\ (result_processing_time second_result == 1)%Q
    /\ get_orchestrator_metrics w = (Returned snapshot, w)
    /\ snapshot !! "total_orchestrations" = Some (VInt 2)
    /\ snapshot !! "successful_orchestrations" = Some (VInt 2)
    /\ snapshot !! "success_rate" = Some (VFloat success_rate)
    /\ (success_rate == 1)%Q
    /\ snapshot !! "average_processing_time" = Some (VFloat average)
    /\ (average == 7 # 4)%Q
    /\ ~ (average == (3 + 1) / 2)%Q.
Proof.
  intros E. eexists _, _, _, _, _, _.
  split; [vm_compute; reflexivity|].
  split_and!; try (vm_compute; reflexivity).
  all: vm_compute; congruence.
Qed.

(** * Further properties of the code *)

(** ** One orchestration, step by step *)

Lemma orchestrate_steps_unfold (E : Env) (context : AgentContext) (start_time : Q) (w : World) :
  orchestrate_steps E context start_time w
  = match registry_route_query E (query context) context with
    | Raised e => (Raised e, w)
    | Returned agent_assignments =>
    match _execute_agents E agent_assignments context w with
    | (Raised e, w1) => (Raised e, w1)
    | (Returned rs, w1) =>
    match _synthesize_responses E (query context) rs context w1 with
    | (Raised e, w2) => (Raised e, w2)
    | (Returned final, w2) =>
    match _assess_quality E (query context) final rs w2 with
    | (Raised e, w3) => (Raised e, w3)
    | (Returned c, w3) =>
    match _generate_metadata rs context with
    | Raised e => (Raised e, w3)
    | Returned metadata =>
        let processing_time := (clock E (clock_reads w3) - start_time)%Q in
        (Returned (mkResult final rs c (_extract_sources E rs) metadata processing_time
                     (role_of <$> rs)),
         (_update_metrics processing_time true (time_time E w3).2).2)
    end end end end end.
Proof.
  unfold orchestrate_steps, _route_to_agents. rewrite bind_run. unfold lift at 1.
  destruct (registry_route_query E (query context) context) as [agent_assignments|e]; [|done].
  rewrite bind_run. destruct (_execute_agents E _ context w) as [[rs|e] w1]; [|done].
  rewrite bind_run. destruct (_synthesize_responses E _ rs context w1) as [[final|e] w2]; [|done].
  rewrite bind_run. destruct (_assess_quality E _ final rs w2) as [[c|e] w3]; [|done].
  rewrite bind_run. unfold lift at 1.
  destruct (_generate_metadata rs context) as [metadata|e]; [|done].
  reflexivity.
Qed.

Lemma orchestrate_failed_unfold (E : Env) (start_time : Q) (e : PyExn) (w : World) :
  let processing_time := (clock E (clock_reads w) - start_time)%Q in
  orchestrate_failed E start_time e w
  = (Returned (mkResult
       ("I encountered an error while processing your request: " +:+ exn_str e)
       [] 0%Q [] {["error" := VStr (exn_str e)]} processing_time []),
     (_update_metrics processing_time false (time_time E w).2).2).
Proof.
  unfold orchestrate_failed, _update_metrics, set_metrics, get_metrics, time_time.
  run_py. reflexivity.
Qed.

Lemma update_metrics_calls (t : Q) (success : bool) (w : World) :
  calls (_update_metrics t success w).2 = calls w.
Proof. reflexivity. Qed.

Lemma synthesize_run (E : Env) (query : string) (rs : list AgentResponse)
    (context : AgentContext) (w : World) :
  match rs with
  | [] => _synthesize_responses E query rs context w = (Returned unable_message, w)
  | [r] => _synthesize_responses E query rs context w = (Returned (content r), w)
  | _ => exists variables,
           _synthesize_responses E query rs context w
           = (generation_model E (calls w) synthesis_prompt variables,
              mkWorld (self_metrics w) (calls w ++ [GenerationCall synthesis_prompt variables])
                      (clock_reads w) (tasks_created w))
  end.
Proof. destruct rs as [|r [|r' rs]]; try done. by eexists. Qed.

Lemma assess_quality_calls (E : Env) (query response : string)
    (rs : list AgentResponse) (w : World) :
  exists c w',
    _assess_quality E query response rs w = (Returned c, w')
    /\ calls w' = calls w ++ match rs with
                             | [] => []
                             | _ => [GenerationCall quality_prompt
                                       (quality_variables E query response rs)]
                             end.
Proof.
  destruct rs as [|r rs].
  - exists 0%Q, w. split; [done | by rewrite app_nil_r].
  - eexists _, _. split; [apply assess_quality_run | done].
Qed.

Lemma world_at_try_fields (E : Env) (w : World) :
  calls (world_at_try E w) = calls w
  /\ clock_reads (world_at_try E w) = S (clock_reads w)
  /\ tasks_created (world_at_try E w) = tasks_created w.
Proof. done. Qed.

(** What one orchestration does to the state, and the time it reports. *)
Lemma orchestrate_query_effects (E : Env) (context : AgentContext) (w : World) :
  exists result w' issued,
    orchestrate_query E context w = (Returned result, w')
    /\ calls w' = calls w ++ issued
    /\ clock_reads w' = clock_reads w + 2
    /\ result_processing_time result
       = (clock E (S (clock_reads w)) - clock E (clock_reads w))%Q
    /\ issued_in_order result issued.
Proof.
  rewrite orchestrate_query_run, orchestrate_steps_unfold.
  destruct (world_at_try_fields E w) as (Hcalls & Hreads & _).
  assert (Hfail : forall e w1 issued synthesis quality,
    calls w1 = calls w ++ issued -> clock_reads w1 = S (clock_reads w) ->
    issued = []
    \/ issued = [GenerationCall quality_prompt quality]
    \/ issued = [GenerationCall synthesis_prompt synthesis]
    \/ issued = [GenerationCall synthesis_prompt synthesis;
                 GenerationCall quality_prompt quality] ->
    exists result w' issued,
      orchestrate_failed E (clock E (clock_reads w)) e w1 = (Returned result, w')
      /\ calls w' = calls w ++ issued
      /\ clock_reads w' = clock_reads w + 2
      /\ result_processing_time result
         = (clock E (S (clock_reads w)) - clock E (clock_reads w))%Q
      /\ issued_in_order result issued).
  { intros e w1 issued synthesis quality Hc Hr Hshape. eexists _, _, issued.
    split; [apply orchestrate_failed_unfold|].
    split_and!; simpl; [done | lia | by rewrite Hr |].
    exists synthesis, quality. unfold succeeded. simpl.
    by rewrite lookup_singleton_eq. }
  destruct (registry_route_query E (query context) context) as [agent_assignments|e];
    [|apply (Hfail e _ [] [] []); [by rewrite app_nil_r | done | by left]].
  rewrite execute_agents_run.
  destruct (gather _) as [results|e];
    [|apply (Hfail e _ [] [] []); [by rewrite app_nil_r | done | by left]].
  set (rs := sort_reverse priority_key _).
  pose proof (synthesize_run E (query context) rs context) as Hsynth.
  destruct rs as [|r [|r' rs']].
  - rewrite Hsynth. simpl.
    destruct (_generate_metadata [] context) as [metadata|e] eqn:Hmeta;
      [|apply (Hfail e _ [] [] []); [by rewrite app_nil_r | done | by left]].
    eexists _, _, []. split; [reflexivity|]. simpl. rewrite app_nil_r.
    split_and!; [done | lia | done |].
    exists [], []. unfold succeeded. simpl.
    by rewrite (generate_metadata_succeeded _ _ _ Hmeta).
  - rewrite Hsynth, assess_quality_run. simpl.
    destruct (_generate_metadata [r] context) as [metadata|e] eqn:Hmeta.
    + eexists _, _, [_]. split; [reflexivity|]. simpl.
      split_and!; [done | lia | done |].
      eexists [], _. unfold succeeded. simpl.
      by rewrite (generate_metadata_succeeded _ _ _ Hmeta).
    + apply (Hfail e _ [GenerationCall quality_prompt
                          (quality_variables E (query context) (content r) [r])]
                   [] (quality_variables E (query context) (content r) [r]));
        simpl; [done | done | right; by left].
  - edestruct Hsynth as [variables ->]. cbv beta iota.
    destruct (generation_model E _ synthesis_prompt variables) as [final|e].
    + rewrite assess_quality_run. simpl.
      destruct (_generate_metadata (r :: r' :: rs') context) as [metadata|e] eqn:Hmeta.
      * eexists _, _, [_; _]. split; [reflexivity|]. simpl.
        split_and!; [by rewrite <- ?app_assoc | lia | done |].
        eexists _, _. unfold succeeded. simpl.
        by rewrite (generate_metadata_succeeded _ _ _ Hmeta).
      * apply (Hfail e _ [GenerationCall synthesis_prompt variables;
                          GenerationCall quality_prompt
                            (quality_variables E (query context) final (r :: r' :: rs'))]
                     variables (quality_variables E (query context) final (r :: r' :: rs')));
          simpl; [by rewrite <- ?app_assoc | done | by do 3 right].
    + apply (Hfail e _ [GenerationCall synthesis_prompt variables] variables []);
        simpl; [done | done | right; right; by left].
Qed.

(** X1.  One orchestration reads the clock twice and issues at most two
    generation calls, none of them on any other prompt.  A successful
    orchestration issues none when no response survives, the quality call
    alone when one survives, the synthesis call followed by the quality
    call when several do.  A failed one issues an initial part of these:
    nothing, one of the two calls, or the synthesis call followed by the
    quality call; the quality call never precedes the synthesis call and
    no call is issued twice. *)
Theorem orchestration_issues_at_most_two_calls (E : Env) (context : AgentContext) (w : World) :
  exists result w' issued,
    orchestrate_query E context w = (Returned result, w')
    /\ calls w' = calls w ++ issued
    /\ issued_in_order result issued
    /\ Forall orchestrator_call issued
    /\ (if succeeded result
        then length issued = min 2 (length (agent_responses result))
        else length issued <= 2)
    /\ clock_reads w' = clock_reads w + 2.
Proof.
  destruct (orchestrate_query_effects E context w)
    as (result & w' & issued & Hrun & Hcalls & Hreads & _ & Horder).
  exists result, w', issued. split_and!; try done.
  - destruct Horder as (synthesis & quality & Horder).
    assert (Hsynthesis : orchestrator_call (GenerationCall synthesis_prompt synthesis))
      by (eexists; by left).
    assert (Hquality : orchestrator_call (GenerationCall quality_prompt quality))
      by (eexists; by right).
    destruct (succeeded result).
    + destruct (agent_responses result) as [|r [|r' rs]]; subst issued;
        repeat constructor; done.
    + destruct Horder as [->|[->|[->| ->]]]; repeat constructor; done.
  - destruct Horder as (synthesis & quality & Horder).
    destruct (succeeded result).
    + destruct (agent_responses result) as [|r [|r' rs]]; subst issued; simpl; lia.
    + destruct Horder as [->|[->|[->| ->]]]; simpl; lia.
Qed.

(** ** Shape of an orchestration result *)

Lemma successful_responses_positive (E : Env) (pairs : list ((Task * Q) * AgentResponse)) :
  Forall (fun r => (0 < confidence r)%Q) (successful_responses E pairs).
Proof.
  induction pairs as [|[[task priority] response] pairs IH]; simpl; [constructor|].
  destruct (Qltb 0 (confidence response)) eqn:Hpos; [|done].
  constructor; [|done]. by apply Qltb_true in Hpos.
Qed.

Lemma generate_metadata_fields (rs : list AgentResponse) (context : AgentContext)
    (metadata : gmap string PyVal) :
  _generate_metadata rs context = Returned metadata ->
  metadata !! "agent_count" = Some (VInt (Z.of_nat (length rs)))
  /\ metadata !! "agent_roles" = Some (VList (role_of <$> rs)).
Proof.
  unfold _generate_metadata.
  destruct (user_profile context); [|done].
  destruct (conversation_history context); [|done].
  by intros [= <-].
Qed.

(** X2.  Whatever happens, the result of an orchestration is consistent: its
    agent sequence has one entry per response, read off that response; its
    responses all have a positive confidence and come in descending
    priority; its sources are the deduplicated sources of these responses.
    A result without the key [error] counts and lists its responses in its
    metadata; a result with that key has no response and confidence 0.0. *)
Theorem orchestration_result_consistent (E : Env) (context : AgentContext) (w : World) :
  exists result w',
    orchestrate_query E context w = (Returned result, w')
    /\ agent_sequence result = role_of <$> agent_responses result
    /\ Forall (fun r => (0 < confidence r)%Q) (agent_responses result)
    /\ descending priority_key (agent_responses result)
    /\ result_sources result = _extract_sources E (agent_responses result)
    /\ match result_metadata result !! "error" with
       | None =>
           result_metadata result !! "agent_count"
           = Some (VInt (Z.of_nat (length (agent_responses result))))
           /\ result_metadata result !! "agent_roles" = Some (VList (agent_sequence result))
       | Some _ => agent_responses result = [] /\ result_confidence result = 0%Q
       end.
Proof.
  rewrite orchestrate_query_run, orchestrate_steps_unfold.
  assert (Hfail : forall e w1,
    exists result w',
      orchestrate_failed E (clock E (clock_reads w)) e w1 = (Returned result, w')
      /\ agent_sequence result = role_of <$> agent_responses result
      /\ Forall (fun r => (0 < confidence r)%Q) (agent_responses result)
      /\ descending priority_key (agent_responses result)
      /\ result_sources result = _extract_sources E (agent_responses result)
      /\ match result_metadata result !! "error" with
         | None =>
             result_metadata result !! "agent_count"
             = Some (VInt (Z.of_nat (length (agent_responses result))))
             /\ result_metadata result !! "agent_roles"
                = Some (VList (agent_sequence result))
         | Some _ => agent_responses result = [] /\ result_confidence result = 0%Q
         end).
  { intros e w1. eexists _, _. split; [apply orchestrate_failed_unfold|]. simpl.
    rewrite lookup_singleton_eq. split_and!; try done; constructor. }
  destruct (registry_route_query E (query context) context) as [agent_assignments|e];
    [|apply Hfail].
  rewrite execute_agents_run.
  destruct (gather _) as [results|e]; [|apply Hfail].
  set (pairs := zip _ results).
  assert (Hpositive : Forall (fun r => (0 < confidence r)%Q)
                        (sort_reverse priority_key (successful_responses E pairs))).
  { rewrite sort_reverse_perm. apply successful_responses_positive. }
  pose proof (sort_reverse_descending priority_key (successful_responses E pairs)) as Hsorted.
  set (rs := sort_reverse priority_key _) in *. clearbody rs.
  destruct (_synthesize_responses E _ rs context _) as [[final|e] w2]; [|apply Hfail].
  destruct (_assess_quality E _ final rs w2) as [[c|e] w3]; [|apply Hfail].
  destruct (_generate_metadata rs context) as [metadata|e] eqn:Hmeta; [|apply Hfail].
  eexists _, _. split; [reflexivity|]. simpl.
  rewrite (generate_metadata_succeeded _ _ _ Hmeta).
  destruct (generate_metadata_fields _ _ _ Hmeta) as [Hcount Hroles].
  by split_and!.
Qed.

(** ** Order and tags of the coordinator's responses *)

Lemma successful_responses_by_priority (E : Env) (context : AgentContext) (p : Q)
    (agent_assignments : list (Agent * Q)) (produced : list AgentResponse) (n : nat) :
  payload <$> filter (fun r => (priority_key r == p)%Q)
                (successful_responses E (zip (tasks_from n agent_assignments context) produced))
  = (fun ar => payload ar.2)
      <$> filter (fun ar : (Agent * Q) * AgentResponse =>
                    (ar.1.2 == p)%Q /\ (0 < confidence ar.2)%Q)
            (zip agent_assignments produced).
Proof.
  revert produced n.
  induction agent_assignments as [|[agent q] rest IH]; intros [|r produced] n; try done.
  simpl. rewrite (filter_cons _ ((agent, q), r)). simpl.
  destruct (Qltb 0 (confidence r)) eqn:Hpos.
  - apply Qltb_true in Hpos. rewrite filter_cons, priority_key_tag.
    destruct (decide (q == p)%Q) as [Hq|Hq].
    + rewrite decide_True by done. rewrite !fmap_cons. f_equal. apply IH.
    + rewrite decide_False by (by intros [? _]). apply IH.
  - apply Qltb_false in Hpos.
    rewrite decide_False; [apply IH|]. intros [_ Hlt]. by apply Qlt_not_le in Hlt.
Qed.

(** X3.  When every assigned agent returns a response, the coordinator
    returns the usable ones in descending order of assigned priority, and
    those assigned the same priority in the order of their assignments. *)
Theorem execute_agents_order (E : Env) (context : AgentContext)
    (agent_assignments : list (Agent * Q)) (produced : list AgentResponse) (w : World) :
  Forall2 (fun assignment response => execute assignment.1 context = Returned response)
          agent_assignments produced ->
  exists responses w',
    _execute_agents E agent_assignments context w = (Returned responses, w')
    /\ descending priority_key responses
    /\ forall p : Q,
         payload <$> filter (fun r => (priority_key r == p)%Q) responses
         = (fun ar => payload ar.2)
             <$> filter (fun ar : (Agent * Q) * AgentResponse =>
                           (ar.1.2 == p)%Q /\ (0 < confidence ar.2)%Q)
                   (zip agent_assignments produced).
Proof.
  intros Hall. eexists _, _. rewrite execute_agents_run.
  rewrite (gather_all_returned _ _ _ produced Hall).
  split_and!; [reflexivity | apply sort_reverse_descending |].
  intros p. rewrite sort_reverse_stable. apply successful_responses_by_priority.
Qed.

Lemma execute_agents_order_witness :
  let E := example_env (fun _ => Returned "0.9") (Returned []) in
  let context := example_context "Who approves my leave?" in
  let agent_assignments :=
    [(answering_agent "C" (4 # 5), (1 # 2)%Q);
     (answering_agent "A" (4 # 5), (9 # 10)%Q);
     (answering_agent "B" (4 # 5), (9 # 10)%Q)] in
  let produced :=
    [mkResponse "C" (4 # 5) [] 0 {["agent_role" := VStr "C"]};
     mkResponse "A" (4 # 5) [] 0 {["agent_role" := VStr "A"]};
     mkResponse "B" (4 # 5) [] 0 {["agent_role" := VStr "B"]}] in
  Forall2 (fun assignment response => execute assignment.1 context = Returned response)
          agent_assignments produced
  /\ exists responses w',
       _execute_agents E agent_assignments context fresh_world = (Returned responses, w')
       /\ descending priority_key responses
       /\ forall p : Q,
            payload <$> filter (fun r => (priority_key r == p)%Q) responses
            = (fun ar => payload ar.2)
                <$> filter (fun ar : (Agent * Q) * AgentResponse =>
                              (ar.1.2 == p)%Q /\ (0 < confidence ar.2)%Q)
                      (zip agent_assignments produced).
Proof.
  intros E context agent_assignments produced.
  assert (Hall : Forall2
    (fun assignment response => execute assignment.1 context = Returned response)
    agent_assignments produced) by (repeat constructor).
  split; [exact Hall|].
  exact (execute_agents_order E context agent_assignments produced fresh_world Hall).
Defined.

Lemma successful_responses_tags (E : Env) (context : AgentContext)
    (agent_assignments : list (Agent * Q)) (produced : list AgentResponse) (n : nat) :
  Forall (fun r' => exists agent p r,
            ((agent, p), r) ∈ zip agent_assignments produced
            /\ payload r' = payload r
            /\ metadata r' !! "priority" = Some (VFloat p)
            /\ forall k : string, k <> "priority" -> k <> "agent_role" ->
                 metadata r' !! k = metadata r !! k)
         (successful_responses E (zip (tasks_from n agent_assignments context) produced)).
Proof.
  revert produced n.
  induction agent_assignments as [|[agent q] rest IH]; intros [|r produced] n;
    try constructor.
  simpl.
  assert (Hrest : Forall (fun r' => exists agent' p r0,
            ((agent', p), r0) ∈ ((agent, q), r) :: zip rest produced
            /\ payload r' = payload r0
            /\ metadata r' !! "priority" = Some (VFloat p)
            /\ forall k : string, k <> "priority" -> k <> "agent_role" ->
                 metadata r' !! k = metadata r0 !! k)
         (successful_responses E (zip (tasks_from (S n) rest context) produced))).
  { eapply Forall_impl; [apply IH|]. intros r' (agent' & p & r0 & Hin & Hrest).
    exists agent', p, r0. split; [by apply list_elem_of_further | done]. }
  destruct (Qltb 0 (confidence r)); [|done].
  constructor; [|done]. exists agent, q, r.
  split_and!; [apply list_elem_of_here | done | |].
  - unfold tag_response. simpl. by rewrite lookup_insert_ne, lookup_insert_eq.
  - intros k Hp Hr. unfold tag_response. simpl. by rewrite !lookup_insert_ne.
Qed.

(** X4.  When every assigned agent returns a response, each response the
    coordinator returns is the response of one assignment with two metadata
    entries set: it carries the assigned priority under the key [priority],
    and its content, confidence, sources, processing time and every other
    metadata entry are the agent's. *)
Theorem execute_agents_tags (E : Env) (context : AgentContext)
    (agent_assignments : list (Agent * Q)) (produced : list AgentResponse) (w : World) :
  Forall2 (fun assignment response => execute assignment.1 context = Returned response)
          agent_assignments produced ->
  exists responses w',
    _execute_agents E agent_assignments context w = (Returned responses, w')
    /\ Forall (fun r' => exists agent p r,
                 ((agent, p), r) ∈ zip agent_assignments produced
                 /\ payload r' = payload r
                 /\ metadata r' !! "priority" = Some (VFloat p)
                 /\ forall k : string, k <> "priority" -> k <> "agent_role" ->
                      metadata r' !! k = metadata r !! k)
              responses.
Proof.
  intros Hall. eexists _, _. rewrite execute_agents_run.
  rewrite (gather_all_returned _ _ _ produced Hall).
  split; [reflexivity|]. rewrite sort_reverse_perm. apply successful_responses_tags.
Qed.

Lemma execute_agents_tags_witness :
  let E := example_env (fun _ => Returned "0.9") (Returned []) in
  let context := example_context "When is payday?" in
  let agent_assignments :=
    [(answering_agent "payroll" (4 # 5), 1%Q); (answering_agent "benefits" 0, 1%Q)] in
  let produced :=
    [mkResponse "payroll" (4 # 5) [] 0 {["agent_role" := VStr "payroll"]};
     mkResponse "benefits" 0 [] 0 {["agent_role" := VStr "benefits"]}] in
  Forall2 (fun assignment response => execute assignment.1 context = Returned response)
          agent_assignments produced
  /\ exists responses w',
       _execute_agents E agent_assignments context fresh_world = (Returned responses, w')
       /\ Forall (fun r' => exists agent p r,
                    ((agent, p), r) ∈ zip agent_assignments produced
                    /\ payload r' = payload r
                    /\ metadata r' !! "priority" = Some (VFloat p)
                    /\ forall k : string, k <> "priority" -> k <> "agent_role" ->
                         metadata r' !! k = metadata r !! k)
                 responses.
Proof.
  intros E context agent_assignments produced.
  assert (Hall : Forall2
    (fun assignment response => execute assignment.1 context = Returned response)
    agent_assignments produced) by (repeat constructor).
  split; [exact Hall|].
  exact (execute_agents_tags E context agent_assignments produced fresh_world Hall).
Defined.

(** ** The three outcomes of synthesis *)


(** The coordinator's run when every agent returns. *)
Lemma execute_agents_usable (E : Env) (context : AgentContext)
    (agent_assignments : list (Agent * Q)) (produced : list AgentResponse) (w : World) :
  Forall2 (fun assignment response => execute assignment.1 context = Returned response)
          agent_assignments produced ->
  exists rs,
    _execute_agents E agent_assignments context w
    = (Returned rs, mkWorld (self_metrics w) (calls w) (clock_reads w)
                            (length agent_assignments + tasks_created w))
    /\ payload <$> rs ≡ₚ payload <$> filter (fun r => (0 < confidence r)%Q) produced.
Proof.
  intros Hall. eexists. rewrite execute_agents_run.
  rewrite (gather_all_returned _ _ _ produced Hall). split; [reflexivity|].
  rewrite sort_reverse_perm, successful_responses_payload; [done|].
  rewrite tasks_from_length. by eapply Forall2_length.
Qed.





(** X7.  When two or more responses are usable and the synthesis call fails,
    the failure is not absorbed: the orchestration returns the degraded
    result carrying the exception's text, lists none of the usable
    responses, and is counted as a failure. *)
Theorem orchestration_with_failed_synthesis (E : Env) (context : AgentContext)
    (agent_assignments : list (Agent * Q)) (produced : list AgentResponse)
    (e : PyExn) (w : World) :
  registry_route_query E (query context) context = Returned agent_assignments ->
  Forall2 (fun assignment response => execute assignment.1 context = Returned response)
          agent_assignments produced ->
  2 <= length (filter (fun r => (0 < confidence r)%Q) produced) ->
  (forall variables, generation_model E (calls w) synthesis_prompt variables = Raised e) ->
  exists result w',
    orchestrate_query E context w = (Returned result, w')
    /\ final_response result
       = "I encountered an error while processing your request: " +:+ exn_str e
    /\ result_metadata result !! "error" = Some (VStr (exn_str e))
    /\ agent_responses result = []
    /\ result_confidence result = 0%Q
    /\ successful_orchestrations (self_metrics w')
       = successful_orchestrations (self_metrics w)
    /\ total_orchestrations (self_metrics w')
       = (total_orchestrations (self_metrics w) + 1)%Z.
Proof.
  intros Hroute Hall Hmany Hmodel.
  rewrite orchestrate_query_run, orchestrate_steps_unfold, Hroute.
  destruct (execute_agents_usable E context _ _ (world_at_try E w) Hall) as (rs & -> & Hperm).
  apply Permutation_length in Hperm. rewrite !length_fmap in Hperm.
  destruct rs as [|r' [|r'' rs]]; simpl in Hperm; try lia.
  pose proof (synthesize_run E (query context) (r' :: r'' :: rs) context
                (mkWorld (self_metrics (world_at_try E w)) (calls (world_at_try E w))
                   (clock_reads (world_at_try E w))
                   (length agent_assignments + tasks_created (world_at_try E w))))
    as [variables ->].
  simpl. rewrite Hmodel. eexists _, _. split; [apply orchestrate_failed_unfold|].
  simpl. rewrite lookup_singleton_eq. by split_and!.
Qed.

Lemma orchestration_with_failed_synthesis_witness :
  let agent_assignments :=
    [(answering_agent "payroll" (4 # 5), 1%Q); (answering_agent "benefits" (1 # 2), 1%Q)] in
  let e := mkExn "TimeoutError" "generation timed out" in
  let E := example_env (fun _ => Raised e) (Returned agent_assignments) in
  let context := example_context "When is payday?" in
  let produced :=
    [mkResponse "payroll" (4 # 5) [] 0 {["agent_role" := VStr "payroll"]};
     mkResponse "benefits" (1 # 2) [] 0 {["agent_role" := VStr "benefits"]}] in
  (registry_route_query E (query context) context = Returned agent_assignments
   /\ Forall2 (fun assignment response => execute assignment.1 context = Returned response)
              agent_assignments produced
   /\ 2 <= length (filter (fun r => (0 < confidence r)%Q) produced)
   /\ (forall variables,
         generation_model E (calls fresh_world) synthesis_prompt variables = Raised e))
  /\ exists result w',
       orchestrate_query E context fresh_world = (Returned result, w')
       /\ final_response result
          = "I encountered an error while processing your request: " +:+ exn_str e
       /\ result_metadata result !! "error" = Some (VStr (exn_str e))
       /\ agent_responses result = []
       /\ result_confidence result = 0%Q
       /\ successful_orchestrations (self_metrics w')
          = successful_orchestrations (self_metrics fresh_world)
       /\ total_orchestrations (self_metrics w')
          = (total_orchestrations (self_metrics fresh_world) + 1)%Z.
Proof.
  intros agent_assignments e E context produced.
  assert (Hroute : registry_route_query E (query context) context = Returned agent_assignments)
    by reflexivity.
  assert (Hall : Forall2
    (fun assignment response => execute assignment.1 context = Returned response)
    agent_assignments produced) by (repeat constructor).
  assert (Hmany : 2 <= length (filter (fun r => (0 < confidence r)%Q) produced))
    by (vm_compute; lia).
  assert (Hmodel : forall variables,
            generation_model E (calls fresh_world) synthesis_prompt variables = Raised e)
    by reflexivity.
  split; [done|].
  exact (orchestration_with_failed_synthesis E context agent_assignments produced e
           fresh_world Hroute Hall Hmany Hmodel).
Defined.

(** ** More on the deduplication of sources *)

Section MoreExtractSources.
Variable E : Env.

Lemma first_seen_sublist (seen : gset string) (l : list Document) :
  first_seen E seen l `sublist_of` l.
Proof.
  revert seen. induction l as [|source rest IH]; intros seen; simpl; [done|].
  destruct (decide (source_id E source ∈ seen)).
  - by apply sublist_cons.
  - by apply sublist_skip.
Qed.

Lemma first_seen_fresh (seen : gset string) (l : list Document) :
  Forall (fun s => source_id E s ∉ seen) (first_seen E seen l).
Proof.
  revert seen. induction l as [|source rest IH]; intros seen; simpl; [constructor|].
  destruct (decide (source_id E source ∈ seen)) as [Hseen|Hnew]; [apply IH|].
  constructor; [done|].
  eapply Forall_impl; [apply IH|]. intros s Hs. set_solver.
Qed.

Lemma first_seen_NoDup (seen : gset string) (l : list Document) :
  NoDup (source_id E <$> first_seen E seen l).
Proof.
  revert seen. induction l as [|source rest IH]; intros seen; simpl; [constructor|].
  destruct (decide (source_id E source ∈ seen)) as [Hseen|Hnew]; [apply IH|].
  rewrite fmap_cons. constructor; [|apply IH].
  intros Hin. apply list_elem_of_fmap in Hin as (s & Heq & Hs).
  pose proof (first_seen_fresh ({[source_id E source]} ∪ seen) rest) as Hfresh.
  rewrite Forall_forall in Hfresh. apply (Hfresh s Hs). rewrite <- Heq. set_solver.
Qed.

Lemma first_seen_covers (seen : gset string) (l : list Document) (s : Document) :
  s ∈ l -> source_id E s ∈ seen \/ source_id E s ∈ source_id E <$> first_seen E seen l.
Proof.
  revert seen. induction l as [|source rest IH]; intros seen Hin; [by apply elem_of_nil in Hin|].
  simpl. apply elem_of_cons in Hin as [->|Hin].
  - destruct (decide (source_id E source ∈ seen)); [by left|].
    right. rewrite fmap_cons. apply list_elem_of_here.
  - destruct (decide (source_id E source ∈ seen)) as [Hseen|Hnew]; [by apply IH|].
    destruct (IH ({[source_id E source]} ∪ seen) Hin) as [Hs|Hs].
    + apply elem_of_union in Hs as [Hs|Hs]; [|by left].
      apply elem_of_singleton in Hs. right. rewrite fmap_cons, Hs. apply list_elem_of_here.
    + right. rewrite fmap_cons. by apply list_elem_of_further.
Qed.

(** X8.  Source extraction invents nothing and reorders nothing: its output
    is a subsequence of the sources of the responses, in the order the
    responses list them.  No two sources of the output share an identifier,
    and every identifier of an input source is the identifier of an output
    source. *)
Theorem extract_sources_subsequence (rs : list AgentResponse) :
  _extract_sources E rs `sublist_of` all_sources rs
  /\ NoDup (source_id E <$> _extract_sources E rs)
  /\ Forall (fun s => source_id E s ∈ source_id E <$> _extract_sources E rs)
            (all_sources rs).
Proof.
  rewrite extract_sources_first_seen. split_and!.
  - apply first_seen_sublist.
  - apply first_seen_NoDup.
  - apply Forall_forall. intros s Hs.
    destruct (first_seen_covers ∅ _ s Hs) as [Hin|Hin]; [set_solver | done].
Qed.

(** X9.  The identifier looks at the first 100 characters of the content
    only: of two sources that agree on these and on the [source] entry of
    their metadata, the second is dropped, whatever its text is from the
    101st character on, and also when another agent supplied it. *)
Theorem extract_sources_conflates_long_documents (d1 d2 : Document)
    (r1 r2 : AgentResponse) :
  py_prefix 100 (page_content d1) = py_prefix 100 (page_content d2) ->
  doc_metadata d1 !! "source" = doc_metadata d2 !! "source" ->
  sources r1 = [d1] -> sources r2 = [d2] ->
  _extract_sources E [r1; r2] = [d1].
Proof.
  intros Hprefix Hsource Hr1 Hr2.
  rewrite extract_sources_first_seen. unfold all_sources. simpl.
  rewrite Hr1, Hr2. simpl.
  assert (Hid : source_id E d2 = source_id E d1)
    by (unfold source_id; by rewrite Hprefix, Hsource).
  rewrite decide_False by set_solver.
  rewrite decide_True; [done|]. rewrite Hid. set_solver.
Qed.

End MoreExtractSources.

Lemma extract_sources_conflates_long_documents_witness :
  let E := example_env (fun _ => Returned "0.9") (Returned []) in
  let d1 := mkDocument (handbook_opening +:+ " Section 4 covers the cabin crew.")
                       {["source" := VStr "handbook"]} in
  let d2 := mkDocument (handbook_opening +:+ " Section 9 covers the ground staff.")
                       {["source" := VStr "handbook"]} in
  let r1 := mkResponse "cabin" (4 # 5) [d1] 0 ∅ in
  let r2 := mkResponse "ground" (4 # 5) [d2] 0 ∅ in
  (py_prefix 100 (page_content d1) = py_prefix 100 (page_content d2)
   /\ doc_metadata d1 !! "source" = doc_metadata d2 !! "source"
   /\ sources r1 = [d1] /\ sources r2 = [d2])
  /\ d1 <> d2
  /\ _extract_sources E [r1; r2] = [d1].
Proof.
  intros E d1 d2 r1 r2.
  assert (Hprefix : py_prefix 100 (page_content d1) = py_prefix 100 (page_content d2))
    by (vm_compute; reflexivity).
  assert (Hsource : doc_metadata d1 !! "source" = doc_metadata d2 !! "source")
    by reflexivity.
  split; [done|]. split; [discriminate|].
  exact (extract_sources_conflates_long_documents E d1 d2 r1 r2 Hprefix Hsource eq_refl eq_refl).
Defined.

(** ** More on the metrics *)

(** X10.  After any number of orchestration calls made one after the other
    on a fresh orchestrator, none included, the snapshot reports as many
    attempts as calls were made and as many successes as results were built
    by the pipeline; the successes never exceed the attempts and the success
    rate lies in [0, 1].  Before the first call the rate is 0.0: the
    snapshot does not divide by zero. *)
Theorem metrics_counters (E : Env) (contexts : list AgentContext)
    (issued : list ExternalCall) (reads tasks : nat) :
  exists results w snapshot success_rate,
    orchestrate_all E contexts (mkWorld initial_metrics issued reads tasks)
    = (Returned results, w)
    /\ get_orchestrator_metrics w = (Returned snapshot, w)
    /\ snapshot !! "total_orchestrations" = Some (VInt (Z.of_nat (length contexts)))
    /\ snapshot !! "successful_orchestrations"
       = Some (VInt (Z.of_nat (length (filter (fun r => succeeded r = true) results))))
    /\ length (filter (fun r => succeeded r = true) results) <= length contexts
    /\ snapshot !! "success_rate" = Some (VFloat success_rate)
    /\ (0 <= success_rate <= 1)%Q
    /\ match contexts with [] => success_rate = 0%Q | _ => True end.
Proof.
  destruct (orchestrate_all_metrics E contexts (mkWorld initial_metrics issued reads tasks))
    as (results & w & Hrun & Hlen & Hfold).
  destruct (recorded_all results initial_metrics) as (Htotal & Hsucc & _); [done|].
  simpl in Hfold. rewrite <- Hfold in Htotal, Hsucc. simpl in Htotal, Hsucc.
  rewrite Z.add_0_l in Htotal, Hsucc. rewrite Hlen in Htotal.
  assert (Hle : length (filter (fun r => succeeded r = true) results) <= length contexts).
  { rewrite <- Hlen. apply length_filter. }
  set (rate := if (0 <? total_orchestrations (self_metrics w))%Z
              then (inject_Z (successful_orchestrations (self_metrics w))
                    / inject_Z (total_orchestrations (self_metrics w)))%Q
              else 0%Q).
  assert (Hrate : (0 <= rate <= 1)%Q).
  { unfold rate. rewrite Htotal, Hsucc.
    destruct (0 <? Z.of_nat (length contexts))%Z eqn:Hpos; [|done].
    apply Z.ltb_lt in Hpos. split.
    - unfold Qdiv. apply Qmult_le_0_compat; [unfold Qle; simpl; lia|].
      apply Qinv_le_0_compat. unfold Qle. simpl. lia.
    - apply Qle_shift_div_r; [unfold Qlt; simpl; lia|].
      rewrite Qmult_1_l. rewrite <- Zle_Qle. lia. }
  exists results, w,
    (list_to_map
       [("total_orchestrations", VInt (total_orchestrations (self_metrics w)));
        ("successful_orchestrations", VInt (successful_orchestrations (self_metrics w)));
        ("success_rate", VFloat rate);
        ("average_processing_time", VFloat (average_processing_time (self_metrics w)))]),
    rate.
  destruct Hrate as [Hlo Hhi].
  split_and!; [exact Hrun | reflexivity | | | exact Hle | reflexivity
               | exact Hlo | exact Hhi |].
  - by rewrite <- Htotal.
  - by rewrite <- Hsucc.
  - destruct contexts; [|done]. unfold rate. by rewrite Htotal.
Qed.

(** X11.  The average is taken over the calls counted so far, which
    [orchestrate_query] counts when it starts, not when it ends.  When two
    calls on a fresh orchestrator are both counted before the first of them
    records its time, as when the second starts while the first awaits its
    agents, the recorded average of their times [t1] and [t2] is
    [t1 / 4 + t2 / 2]: it is their mean only if [t1] is zero. *)
Theorem overlapping_calls_skew_average (t1 t2 : Q) (s1 s2 : bool)
    (issued : list ExternalCall) (reads tasks : nat) :
  let started :=
    (count_orchestration
       (count_orchestration (mkWorld initial_metrics issued reads tasks)).2).2 in
  let finished := (_update_metrics t2 s2 (_update_metrics t1 s1 started).2).2 in
  total_orchestrations (self_metrics finished) = 2%Z
  /\ (average_processing_time (self_metrics finished) == t1 / 4 + t2 / 2)%Q
  /\ ((average_processing_time (self_metrics finished) == (t1 + t2) / 2)%Q
      <-> (t1 == 0)%Q).
Proof.
  intros started finished.
  assert (Havg : (average_processing_time (self_metrics finished) == t1 / 4 + t2 / 2)%Q).
  { unfold finished, started, _update_metrics, count_orchestration, set_metrics, get_metrics.
    run_py.
    change (0 <? 0 + 1 + 1)%Z with true.
    change (0 + 1 + 1 - 1)%Z with 1%Z. change (0 + 1 + 1)%Z with 2%Z.
    cbv iota. unfold inject_Z. field. }
  split_and!; [reflexivity | exact Havg |].
  rewrite Havg. split; intros H.
  - assert (H4 : (4 * (t1 / 4 + t2 / 2) == 4 * ((t1 + t2) / 2))%Q) by (by rewrite H).
    assert (Hl : (4 * (t1 / 4 + t2 / 2) == t1 + 2 * t2)%Q) by field.
    assert (Hr : (4 * ((t1 + t2) / 2) == 2 * t1 + 2 * t2)%Q) by field.
    rewrite Hl, Hr in H4. lra.
  - rewrite H. field.
Qed.

(** ** The graph pipeline, step by step *)

Section GraphSteps.
Variable E : Env.

Lemma classify_intent_run (query : string) (w : World) :
  GraphRAGPipeline._classify_intent E query w
  = (Returned (classified (generation_model E (calls w) intent_prompt [("query", VStr query)])),
     extend w [GenerationCall intent_prompt [("query", VStr query)]]).
Proof.
  unfold GraphRAGPipeline._classify_intent, try_except. rewrite bind_run.
  unfold GraphRAGPipeline.ainvoke, extend. simpl.
  by destruct (generation_model E (calls w) intent_prompt _).
Qed.

Lemma traverse_graph_run (query intent : string) (entities : list (gmap string PyVal))
    (w : World) :
  let cypher_query := GraphRAGPipeline._build_cypher_query intent entities in
  GraphRAGPipeline._traverse_graph E query intent entities w
  = (Returned match graph_execute_query E (calls w) cypher_query with
              | Returned rows => GraphRAGPipeline._process_graph_results rows intent
              | Raised _ => GraphRAGPipeline.mkGraphContext [] [] [] None
              end,
     extend w [GraphQueryCall cypher_query]).
Proof.
  unfold GraphRAGPipeline._traverse_graph, try_except. rewrite bind_run.
  unfold GraphRAGPipeline.execute_query, extend. simpl.
  by destruct (graph_execute_query E (calls w) _).
Qed.

Lemma search_vector_run (query intent : string) (w : World) :
  GraphRAGPipeline._search_vector E query intent w
  = match embed_query E (calls w) query with
    | Raised _ => (Returned [], extend w [EmbeddingCall query])
    | Returned embedding =>
        (Returned match vector_search E (calls w ++ [EmbeddingCall query]) embedding 5 intent with
                  | Returned documents => documents
                  | Raised _ => []
                  end,
         extend w [EmbeddingCall query; VectorSearchCall embedding 5 intent])
    end.
Proof.
  unfold GraphRAGPipeline._search_vector, try_except. rewrite bind_run.
  unfold GraphRAGPipeline.aembed_query, extend. simpl.
  destruct (embed_query E (calls w) query) as [embedding|e]; [|done].
  rewrite bind_run. unfold GraphRAGPipeline.search. simpl.
  rewrite <- app_assoc. simpl.
  by destruct (vector_search E _ embedding 5 intent).
Qed.

Lemma extend_extend (w : World) (l1 l2 : list ExternalCall) :
  extend (extend w l1) l2 = extend w (l1 ++ l2).
Proof. unfold extend. simpl. by rewrite app_assoc. Qed.

(** Retrieval never raises; it issues its four calls, then the vector
    search when the query could be embedded. *)
Lemma retrieve_run (query : string) (w : World) :
  let intent := classified (generation_model E (calls w) intent_prompt [("query", VStr query)]) in
  exists graph_context vector_context vector_part,
    retrieve E query w
    = (Returned (intent, graph_context, vector_context),
       extend w (retrieval_calls query intent ++ vector_part))
    /\ (vector_part = [] /\ vector_context = []
        \/ exists embedding, vector_part = [VectorSearchCall embedding 5 intent])
    /\ graph_context
       = match graph_execute_query E
                 (calls w ++ [GenerationCall intent_prompt [("query", VStr query)];
                              GenerationCall entity_prompt [("query", VStr query)]])
                 (GraphRAGPipeline._build_cypher_query intent []) with
         | Returned rows => GraphRAGPipeline._process_graph_results rows intent
         | Raised _ => GraphRAGPipeline.mkGraphContext [] [] [] None
         end.
Proof.
  intros intent. unfold retrieve.
  rewrite bind_run, classify_intent_run. fold intent.
  rewrite bind_run, extract_entities_run.
  change (GraphRAGPipeline.ainvoke E entity_prompt [("query", VStr query)] ?w0).2
    with (extend w0 [GenerationCall entity_prompt [("query", VStr query)]]).
  rewrite bind_run, traverse_graph_run. cbv zeta.
  rewrite bind_run, search_vector_run. rewrite !extend_extend. simpl.
  set (g := match graph_execute_query E _ _ with
            | Returned rows => GraphRAGPipeline._process_graph_results rows intent
            | Raised _ => GraphRAGPipeline.mkGraphContext [] [] [] None
            end).
  destruct (embed_query E _ query) as [embedding|e].
  - eexists g, _, [VectorSearchCall embedding 5 intent]. rewrite ret_run, ?extend_extend.
    split_and!; [done | right; by exists embedding | done].
  - exists g, [], []. rewrite ret_run, ?extend_extend, ?app_nil_r.
    split_and!; [done | by left | done].
Qed.

(** The calls of retrieval, exactly: the vector search is issued when, and
    only when, the query could be embedded, whatever the graph store did. *)
Lemma retrieve_calls (query : string) (w : World) :
  let intent := classified (generation_model E (calls w) intent_prompt [("query", VStr query)]) in
  exists result,
    retrieve E query w
    = (Returned result,
       extend w (retrieval_calls query intent
                 ++ vector_search_calls intent (embedded E query w))).
Proof.
  intros intent. unfold retrieve, embedded. fold intent.
  rewrite bind_run, classify_intent_run. fold intent.
  rewrite bind_run, extract_entities_run.
  change (GraphRAGPipeline.ainvoke E entity_prompt [("query", VStr query)] ?w0).2
    with (extend w0 [GenerationCall entity_prompt [("query", VStr query)]]).
  rewrite bind_run, traverse_graph_run. cbv zeta.
  rewrite bind_run, search_vector_run. rewrite !extend_extend. simpl.
  rewrite <- !app_assoc. simpl.
  destruct (embed_query E _ query) as [embedding|e];
    rewrite ret_run, ?extend_extend; simpl; by eexists.
Qed.

End GraphSteps.

Section GraphPipeline.
Variable E : Env.

Lemma process_query_unfold (query : string) (user_context : option (gmap string PyVal))
    (w : World) :
  GraphRAGPipeline.process_query E query user_context w
  = match retrieve E query w with
    | (Raised e, w1) => (Raised e, w1)
    | (Returned (intent, graph_context, vector_context), w1) =>
        match GraphRAGPipeline._combine_contexts E graph_context vector_context with
        | Raised e => (Raised e, w1)
        | Returned text =>
            let fused_context :=
              GraphRAGPipeline.mkFused (GraphRAGPipeline.nodes graph_context)
                (GraphRAGPipeline.relationships graph_context)
                (page_content <$> vector_context) text in
            let variables :=
              GraphRAGPipeline.response_variables query fused_context user_context in
            (Returned (GraphRAGPipeline.mkGraphRAGResponse
               match generation_model E (calls w1) response_prompt variables with
               | Returned answer => answer
               | Raised _ => GraphRAGPipeline.apology_message
               end
               (GraphRAGPipeline._extract_sources graph_context vector_context)
               (py_max (1 # 10) (py_min (9 # 10) (coverage fused_context)))
               (GraphRAGPipeline.paths graph_context)
               vector_context
               (list_to_map [("intent", VStr intent);
                             ("entities", VList []);
                             ("processing_time", VNone)])),
             extend w1 [GenerationCall response_prompt variables])
        end
    end.
Proof.
  unfold GraphRAGPipeline.process_query, retrieve.
  rewrite !(bind_run (GraphRAGPipeline._classify_intent E query)).
  destruct (GraphRAGPipeline._classify_intent E query w) as [[intent|e] w1]; [|done].
  rewrite !(bind_run (GraphRAGPipeline._extract_entities E query)), extract_entities_run.
  rewrite !(bind_run (GraphRAGPipeline._traverse_graph E query intent [])).
  destruct (GraphRAGPipeline._traverse_graph E query intent [] _) as [[g|e] w2]; [|done].
  rewrite !(bind_run (GraphRAGPipeline._search_vector E query intent)).
  destruct (GraphRAGPipeline._search_vector E query intent w2) as [[v|e] w3]; [|done].
  rewrite ret_run, bind_run. unfold GraphRAGPipeline._fuse_context.
  rewrite bind_run. unfold lift at 1.
  destruct (GraphRAGPipeline._combine_contexts E g v) as [text|e]; [|done].
  rewrite ret_run, bind_run, generate_response_run. cbv zeta.
  rewrite bind_run, assess_confidence_run, ret_run. reflexivity.
Qed.

End GraphPipeline.

(** ** Processing of the graph rows *)

Lemma add_values_run (l : list (string * GraphValue))
    (acc : list GraphRAGPipeline.NodeDict * list GraphRAGPipeline.RelationshipDict) :
  foldl GraphRAGPipeline.add_value acc l
  = (acc.1 ++ omap node_of l, acc.2 ++ omap relationship_of l).
Proof.
  revert acc. induction l as [|[key value] l IH]; intros [ns rs]; simpl.
  - by rewrite !app_nil_r.
  - rewrite IH. unfold GraphRAGPipeline.add_value, node_of, relationship_of. simpl.
    destruct value; simpl; by rewrite <- ?app_assoc.
Qed.

Lemma add_rows_run (rows : list (list (string * GraphValue)))
    (acc : list GraphRAGPipeline.NodeDict * list GraphRAGPipeline.RelationshipDict) :
  foldl (fun acc result => foldl GraphRAGPipeline.add_value acc result) acc rows
  = (acc.1 ++ omap node_of (mjoin rows), acc.2 ++ omap relationship_of (mjoin rows)).
Proof.
  revert acc. induction rows as [|row rows IH]; intros [ns rs]; simpl.
  - by rewrite !app_nil_r.
  - rewrite IH, add_values_run. simpl. by rewrite !omap_app, !app_assoc.
Qed.

Lemma length_omap_both (l : list (string * GraphValue)) :
  length (omap node_of l) + length (omap relationship_of l) <= length l.
Proof.
  induction l as [|[key value] l IH]; [done|].
  unfold omap in *. destruct value; cbn; lia.
Qed.

(** X12.  Processing the rows of the graph store keeps, in the order of the
    rows and of the items within a row, every node as a node dictionary and
    every relationship as a relationship dictionary, each as often as the
    rows hold it; it skips any other value, records the intent, and never
    reports a path. *)
Theorem process_graph_results_partition (rows : list (list (string * GraphValue)))
    (intent : string) :
  let graph_context := GraphRAGPipeline._process_graph_results rows intent in
  GraphRAGPipeline.nodes graph_context = omap node_of (mjoin rows)
  /\ GraphRAGPipeline.relationships graph_context = omap relationship_of (mjoin rows)
  /\ GraphRAGPipeline.paths graph_context = []
  /\ GraphRAGPipeline.context_intent graph_context = Some intent
  /\ length (GraphRAGPipeline.nodes graph_context)
     + length (GraphRAGPipeline.relationships graph_context) <= length (mjoin rows).
Proof.
  unfold GraphRAGPipeline._process_graph_results. rewrite add_rows_run. simpl.
  split_and!; try done. apply length_omap_both.
Qed.

(** ** When the graph pipeline raises *)

Section GraphFailure.
Variable E : Env.

Lemma combine_contexts_cases (graph_context : GraphRAGPipeline.GraphContext)
    (vector_context : list Document) :
  match GraphRAGPipeline._combine_contexts E graph_context vector_context with
  | Returned _ => Forall labelled (GraphRAGPipeline.nodes graph_context)
  | Raised e =>
      e = mkExn "IndexError" "list index out of range"
      /\ Exists (fun node => GraphRAGPipeline.node_labels node = [])
                (GraphRAGPipeline.nodes graph_context)
  end.
Proof.
  unfold GraphRAGPipeline._combine_contexts.
  match goal with
  | |- context [match ?nl (GraphRAGPipeline.nodes graph_context) with _ => _ end] =>
      set (node_lines := nl)
  end.
  assert (Hlines : forall l,
    match node_lines l with
    | Returned _ => Forall labelled l
    | Raised e =>
        e = mkExn "IndexError" "list index out of range"
        /\ Exists (fun node => GraphRAGPipeline.node_labels node = []) l
    end).
  { induction l as [|node l IH]; simpl; [constructor|].
    destruct (GraphRAGPipeline.node_labels node) as [|label labels] eqn:Hlabels.
    - split; [done | by constructor].
    - destruct (node_lines l) as [lines|e].
      + constructor; [|done]. unfold labelled. by rewrite Hlabels.
      + destruct IH as [-> Hex]. split; [done | by apply Exists_cons_tl]. }
  specialize (Hlines (GraphRAGPipeline.nodes graph_context)).
  destruct (GraphRAGPipeline.nodes graph_context) as [|node l] eqn:Hnodes; [constructor|].
  by destruct (node_lines (node :: l)).
Qed.

Lemma retrieved_graph_context (query : string) (w : World) :
  exists intent graph_context vector_context w1,
    retrieve E query w = (Returned (intent, graph_context, vector_context), w1)
    /\ intent = classified (generation_model E (calls w) intent_prompt [("query", VStr query)])
    /\ graph_context
       = match graph_rows E query w with
         | Returned rows => GraphRAGPipeline._process_graph_results rows intent
         | Raised _ => GraphRAGPipeline.mkGraphContext [] [] [] None
         end.
Proof.
  destruct (retrieve_run E query w) as (g & v & part & Hrun & _ & Hg).
  eexists _, g, v, _. split; [exact Hrun|]. split; [reflexivity | exact Hg].
Qed.

(** X13.  When the graph store returns a node that has no label, the
    pipeline raises [IndexError]: rendering the node reads its first label,
    outside of any [try]. *)
Theorem process_query_raises_on_unlabelled_node (query : string)
    (user_context : option (gmap string PyVal)) (w : World)
    (rows : list (list (string * GraphValue)))
    (key : string) (identity : Z) (properties : gmap string PyVal) :
  graph_rows E query w = Returned rows ->
  (key, GNode identity [] properties) ∈ mjoin rows ->
  exists w',
    GraphRAGPipeline.process_query E query user_context w
    = (Raised (mkExn "IndexError" "list index out of range"), w').
Proof.
  intros Hrows Hin. rewrite process_query_unfold.
  destruct (retrieved_graph_context query w) as (intent & g & v & w1 & -> & _ & Hg).
  rewrite Hrows in Hg.
  pose proof (combine_contexts_cases g v) as Hcases.
  destruct (GraphRAGPipeline._combine_contexts E g v) as [text|e].
  - exfalso. subst g.
    destruct (process_graph_results_partition rows intent) as (Hnodes & _).
    rewrite Hnodes in Hcases. rewrite Forall_forall in Hcases.
    apply (Hcases (GraphRAGPipeline.mkNode identity [] properties)); [|done].
    apply list_elem_of_omap. by exists (key, GNode identity [] properties).
  - destruct Hcases as [-> _]. by eexists.
Qed.

(** X14.  In every other case the pipeline returns a response, whichever
    of its collaborators fail: when the graph store fails, or returns rows
    in which every node has a label.  The response records the classified
    intent ([general] when classification failed) and its confidence lies
    in [0.1, 0.9]. *)
Theorem process_query_returns (query : string)
    (user_context : option (gmap string PyVal)) (w : World) :
  match graph_rows E query w with
  | Returned rows => Forall not_unlabelled (mjoin rows)
  | Raised _ => True
  end ->
  exists response w',
    GraphRAGPipeline.process_query E query user_context w = (Returned response, w')
    /\ GraphRAGPipeline.metadata response !! "intent"
       = Some (VStr (classified (generation_model E (calls w) intent_prompt
                                   [("query", VStr query)])))
    /\ (1 # 10 <= GraphRAGPipeline.confidence response <= 9 # 10)%Q.
Proof.
  intros Hrows. rewrite process_query_unfold.
  destruct (retrieved_graph_context query w) as (intent & g & v & w1 & -> & Hintent & Hg).
  pose proof (combine_contexts_cases g v) as Hcases.
  destruct (GraphRAGPipeline._combine_contexts E g v) as [text|e].
  - eexists _, _. split; [reflexivity|]. simpl.
    split; [by rewrite Hintent | apply coverage_confidence_bounds].
  - exfalso. destruct Hcases as [_ Hex]. subst g.
    destruct (graph_rows E query w) as [rows|e']; [|by apply Exists_nil in Hex].
    destruct (process_graph_results_partition rows intent) as (Hnodes & _).
    rewrite Hnodes in Hex. apply Exists_exists in Hex as (node & Hin & Hlabels).
    apply list_elem_of_omap in Hin as ([key value] & Hin & Hnode).
    rewrite Forall_forall in Hrows. specialize (Hrows _ Hin).
    unfold not_unlabelled, node_of in *. simpl in *.
    destruct value as [identity labels properties| |]; try done.
    injection Hnode as <-. simpl in Hlabels. by subst labels.
Qed.

End GraphFailure.

Lemma process_query_raises_on_unlabelled_node_witness :
  let rows := [[("n", GNode 7 [] {["name" := VStr "AA123"]})]] in
  let E := example_store_env (fun _ => Returned "flight_info") (Returned rows) (Returned []) in
  (graph_rows E "What is the status of flight AA123?" fresh_world = Returned rows
   /\ ("n", GNode 7 [] {["name" := VStr "AA123"]}) ∈ mjoin rows)
  /\ exists w',
       GraphRAGPipeline.process_query E "What is the status of flight AA123?" None fresh_world
       = (Raised (mkExn "IndexError" "list index out of range"), w').
Proof.
  intros rows E.
  assert (Hrows : graph_rows E "What is the status of flight AA123?" fresh_world
                  = Returned rows) by reflexivity.
  assert (Hin : ("n", GNode 7 [] {["name" := VStr "AA123"]}) ∈ mjoin rows)
    by (simpl; apply list_elem_of_here).
  split; [done|].
  exact (process_query_raises_on_unlabelled_node E _ None fresh_world rows "n" 7 _ Hrows Hin).
Defined.

Lemma process_query_returns_witness :
  let rows := [[("f", GNode 7 ["Flight"] {["name" := VStr "AA123"]});
                ("r", GRelationship 9 "DEPARTS_FROM" ∅)]] in
  let E := example_store_env (fun _ => Raised (mkExn "TimeoutError" "no answer"))
             (Returned rows) (Raised (mkExn "ConnectionError" "index unreachable")) in
  match graph_rows E "What is the status of flight AA123?" fresh_world with
  | Returned rows => Forall not_unlabelled (mjoin rows)
  | Raised _ => True
  end
  /\ exists response w',
       GraphRAGPipeline.process_query E "What is the status of flight AA123?" None fresh_world
       = (Returned response, w')
       /\ GraphRAGPipeline.metadata response !! "intent"
          = Some (VStr (classified (generation_model E (calls fresh_world) intent_prompt
                                      [("query", VStr "What is the status of flight AA123?")])))
       /\ (1 # 10 <= GraphRAGPipeline.confidence response <= 9 # 10)%Q.
Proof.
  intros rows E.
  assert (Hrows : match graph_rows E "What is the status of flight AA123?" fresh_world with
                  | Returned rows => Forall not_unlabelled (mjoin rows)
                  | Raised _ => True
                  end) by (simpl; repeat constructor).
  split; [exact Hrows|].
  exact (process_query_returns E _ None fresh_world Hrows).
Defined.

(** ** Calls and responses of the graph pipeline *)

Section GraphResponses.
Variable E : Env.

(** X15.  Every run of the pipeline issues its external calls one after the
    other in the same order: the classification call, the entity call, the
    graph query built for the classified intent and no entity, the
    embedding of the query; then the vector search, for five passages
    filtered by the intent, when the embedding was returned and not when it
    failed; then the response call, when the pipeline returns and not when
    rendering raised.  Whether the vector store is searched does not depend
    on what the graph store did: its failure does not keep the vector store
    from being searched. *)
Theorem process_query_calls (query : string) (user_context : option (gmap string PyVal))
    (w : World) :
  let intent := classified (generation_model E (calls w) intent_prompt [("query", VStr query)]) in
  exists response_part,
    calls (GraphRAGPipeline.process_query E query user_context w).2
    = calls w ++ retrieval_calls query intent
      ++ vector_search_calls intent (embedded E query w) ++ response_part
    /\ match (GraphRAGPipeline.process_query E query user_context w).1 with
       | Returned _ =>
           exists variables, response_part = [GenerationCall response_prompt variables]
       | Raised _ => response_part = []
       end.
Proof.
  intros intent. rewrite process_query_unfold.
  destruct (retrieve_calls E query w) as ([[intent' g] v] & ->).
  fold intent.
  destruct (GraphRAGPipeline._combine_contexts E g v) as [text|e].
  - eexists [_]. simpl. split; [|by eexists].
    by rewrite <- ?app_assoc.
  - exists []. simpl. split; [|done].
    by rewrite ?app_nil_r, <- ?app_assoc.
Qed.

Lemma graph_extract_sources_length (graph_context : GraphRAGPipeline.GraphContext)
    (vector_context : list Document) :
  length (GraphRAGPipeline._extract_sources graph_context vector_context)
  = length (GraphRAGPipeline.nodes graph_context) + length vector_context.
Proof.
  unfold GraphRAGPipeline._extract_sources.
  by rewrite length_app, length_fmap, length_imap.
Qed.

(** X16.  In every response the pipeline returns, the confidence is a
    function of the number of sources listed: max(0.1, min(0.9, n / 10))
    for [n] sources.  No response reports a graph path, an extracted entity
    or a processing time, and the answer is the fixed apology or a text the
    generation model returned for the response prompt. *)
Theorem process_query_response_shape (query : string)
    (user_context : option (gmap string PyVal)) (w : World) :
  match (GraphRAGPipeline.process_query E query user_context w).1 with
  | Raised e => e = mkExn "IndexError" "list index out of range"
  | Returned response =>
      (GraphRAGPipeline.confidence response
       == Qmax (1 # 10)
            (Qmin (9 # 10)
               (inject_Z (Z.of_nat (length (GraphRAGPipeline.sources response))) / 10)))%Q
      /\ length (GraphRAGPipeline.vector_sources response)
         <= length (GraphRAGPipeline.sources response)
      /\ GraphRAGPipeline.graph_paths response = []
      /\ GraphRAGPipeline.metadata response !! "entities" = Some (VList [])
      /\ GraphRAGPipeline.metadata response !! "processing_time" = Some VNone
      /\ (GraphRAGPipeline.answer response = GraphRAGPipeline.apology_message
          \/ exists history variables,
               generation_model E history response_prompt variables
               = Returned (GraphRAGPipeline.answer response))
  end.
Proof.
  rewrite process_query_unfold.
  destruct (retrieve_run E query w) as (g & v & vector_part & -> & _ & Hg).
  pose proof (combine_contexts_cases E g v) as Hcases.
  destruct (GraphRAGPipeline._combine_contexts E g v) as [text|e];
    [|by destruct Hcases as [-> _]].
  simpl. rewrite graph_extract_sources_length. unfold coverage. simpl.
  rewrite ?length_fmap. split_and!; try done.
  - rewrite py_max_Qmax. apply Q.max_compat; [reflexivity | apply py_min_Qmin].
  - lia.
  - rewrite Hg. destruct (graph_execute_query E _ _) as [rows|e]; [|done].
    by destruct (process_graph_results_partition rows
                   (classified (generation_model E (calls w) intent_prompt
                                  [("query", VStr query)]))) as (_ & _ & -> & _).
  - destruct (generation_model E _ response_prompt _) as [text'|e] eqn:Hmodel;
      [right; by eexists _, _ | by left].
Qed.


End GraphResponses.


(** ** The source list of the graph pipeline *)

Lemma py_prefix_length (n : nat) (s : string) : String.length (py_prefix n s) <= n.
Proof.
  unfold py_prefix. revert s. induction n as [|n IH]; intros [|c s]; simpl; try lia.
  specialize (IH s). lia.
Qed.

Lemma vector_id_inj : Inj (=) (=) (fun i : nat => Some (VStr ("vector_" +:+ pretty i))).
Proof.
  intros i j Heq. injection Heq as Heq. by apply (inj pretty).
Qed.

(** X18.  The source list of a response has one entry per graph node, of
    type [graph], followed by one entry per passage, of type [vector].  The
    entry of a passage never holds more than 200 characters of its content,
    and the identifiers of the passage entries are pairwise distinct. *)
Theorem graph_sources_entries (graph_context : GraphRAGPipeline.GraphContext)
    (vector_context : list Document) :
  let n := length (GraphRAGPipeline.nodes graph_context) in
  let out := GraphRAGPipeline._extract_sources graph_context vector_context in
  length out = n + length vector_context
  /\ Forall (fun s : gmap string PyVal => s !! "type" = Some (VStr "graph")) (take n out)
  /\ Forall (fun s : gmap string PyVal =>
               s !! "type" = Some (VStr "vector")
               /\ exists text, s !! "content" = Some (VStr text) /\ String.length text <= 200)
            (drop n out)
  /\ NoDup ((fun s : gmap string PyVal => s !! "id") <$> drop n out).
Proof.
  intros n out. unfold out, n, GraphRAGPipeline._extract_sources.
  rewrite take_app_length', drop_app_length' by (by rewrite length_fmap).
  split_and!.
  - by rewrite length_app, length_fmap, length_imap.
  - apply Forall_forall. intros s Hs.
    apply list_elem_of_fmap in Hs as (node & -> & _). reflexivity.
  - apply Forall_forall. intros s Hs.
    apply elem_of_lookup_imap in Hs as (i & doc & -> & _).
    split; [reflexivity|]. eexists. split; [reflexivity | apply py_prefix_length].
  - rewrite fmap_imap.
    rewrite (imap_ext _ (fun i _ => Some (VStr ("vector_" +:+ pretty i))))
      by (intros; reflexivity).
    rewrite imap_seq_0. apply NoDup_fmap_2; [exact vector_id_inj | apply NoDup_seq].
Qed.

(** ** Thresholds of the coverage-based confidence *)

Lemma py_clamp_cases (x : Q) :
  let c := py_max (1 # 10) (py_min (9 # 10) x) in
  ((x <= 1 # 10)%Q /\ c = (1 # 10)%Q)
  \/ ((1 # 10 < x)%Q /\ (x < 9 # 10)%Q /\ c = x)
  \/ ((9 # 10 <= x)%Q /\ c = (9 # 10)%Q).
Proof.
  intros c. unfold c, py_max, py_min, Qltb.
  destruct (Qle_bool (9 # 10) x) eqn:Hhigh; cbn [negb].
  - apply Qle_bool_iff in Hhigh. right; right. split; [exact Hhigh | reflexivity].
  - assert (x < 9 # 10)%Q as Hlt.
    { apply Qnot_le_lt. intros Hle. apply Qle_bool_iff in Hle. congruence. }
    destruct (Qle_bool x (1 # 10)) eqn:Hlow; cbn [negb].
    + apply Qle_bool_iff in Hlow. left. split; [exact Hlow | reflexivity].
    + right; left. split_and!; [|exact Hlt|reflexivity].
      apply Qnot_le_lt. intros Hle. apply Qle_bool_iff in Hle. congruence.
Qed.

Lemma count_ratio_le (n m : nat) :
  (inject_Z (Z.of_nat n) / 10 <= inject_Z (Z.of_nat m) / 10)%Q <-> n <= m.
Proof.
  unfold Qle, Qdiv, Qmult, Qinv, inject_Z. cbn. lia.
Qed.

Lemma count_ratio_lt (n m : nat) :
  (inject_Z (Z.of_nat n) / 10 < inject_Z (Z.of_nat m) / 10)%Q <-> n < m.
Proof.
  unfold Qlt, Qdiv, Qmult, Qinv, inject_Z. cbn. lia.
Qed.

Lemma count_clamp_cases (n : nat) :
  let c := py_max (1 # 10) (py_min (9 # 10) (inject_Z (Z.of_nat n) / 10)) in
  (n <= 1 /\ c = (1 # 10)%Q)
  \/ (1 < n < 9 /\ c = (inject_Z (Z.of_nat n) / 10)%Q)
  \/ (9 <= n /\ c = (9 # 10)%Q).
Proof.
  intros c. destruct (py_clamp_cases (inject_Z (Z.of_nat n) / 10))
    as [[Hlow Hc]|[(Hlow & Hhigh & Hc)|[Hhigh Hc]]].
  - left. split; [|exact Hc].
    change (1 # 10)%Q with (inject_Z (Z.of_nat 1) / 10)%Q in Hlow.
    by apply count_ratio_le in Hlow.
  - right; left. split; [|exact Hc].
    change (1 # 10)%Q with (inject_Z (Z.of_nat 1) / 10)%Q in Hlow.
    change (9 # 10)%Q with (inject_Z (Z.of_nat 9) / 10)%Q in Hhigh.
    apply count_ratio_lt in Hlow, Hhigh. lia.
  - right; right. split; [|exact Hc].
    change (9 # 10)%Q with (inject_Z (Z.of_nat 9) / 10)%Q in Hhigh.
    by apply count_ratio_le in Hhigh.
Qed.

(** X19.  The coverage-based confidence depends only on the number of
    retrieved items (graph nodes plus passages): it is 0.1 for no item and
    for one item alike, a tenth of the count from one to nine items, and 0.9
    from nine items on; more items never give a lower confidence. *)
Theorem coverage_confidence_thresholds (response query response' query' : string)
    (context context' : GraphRAGPipeline.FusedContext) (w w' : World) :
  let items (c : GraphRAGPipeline.FusedContext) :=
    length (GraphRAGPipeline.graph_nodes c) + length (GraphRAGPipeline.vector_documents c) in
  match GraphRAGPipeline._assess_confidence response query context w,
        GraphRAGPipeline._assess_confidence response' query' context' w' with
  | (Returned c, _), (Returned c', _) =>
      (c == if (items context <=? 1)%nat then 1 # 10
            else if (9 <=? items context)%nat then 9 # 10
            else inject_Z (Z.of_nat (items context)) / 10)%Q
      /\ (if (items context <=? items context')%nat then (c <= c')%Q else (c' <= c)%Q)
  | _, _ => False
  end.
Proof.
  intros items. unfold GraphRAGPipeline._assess_confidence, mret, Py_ret. cbv beta iota zeta.
  fold (items context) (items context').
  set (n := items context). set (m := items context').
  pose proof (count_clamp_cases n) as Hn. pose proof (count_clamp_cases m) as Hm.
  cbv zeta in Hn, Hm.
  assert (forall a b : nat, a <= b -> (inject_Z (Z.of_nat a) / 10 <= inject_Z (Z.of_nat b) / 10)%Q)
    as Hle by (intros a b Hab; by apply count_ratio_le).
  pose proof (Hle 1 9) as H19. pose proof (fun a => Hle 1 a) as H1. pose proof (fun a => Hle a 9) as H9.
  change (inject_Z (Z.of_nat 1) / 10)%Q with (1 # 10)%Q in *.
  change (inject_Z (Z.of_nat 9) / 10)%Q with (9 # 10)%Q in *.
  split.
  - destruct (Nat.leb_spec n 1), (Nat.leb_spec 9 n);
      destruct Hn as [[? ->]|[[? ->]|[? ->]]]; try lia; reflexivity.
  - destruct (Nat.leb_spec n m);
      destruct Hn as [[? ->]|[[? ->]|[? ->]]];
      destruct Hm as [[? ->]|[[? ->]|[? ->]]]; try lia;
      first [apply Qle_refl | apply H19; lia | apply H1; lia | apply H9; lia | apply Hle; lia].
Qed.

(** ** Metrics of calls made one after the other *)


